(** * The oracle price relayer: a shallow embedding of its three variants

    The repository holds one workflow three times:
    - [src/src/update-oracle.ts]  the direct script (module [Ts] below),
    - [src/dist/update-oracle.js] the managed-function build (module [Dist]),
    - [src/unnamed/part_000]      an earlier compiled module (module [Compiled]).

    Every function of the source is an [async] function built from awaited
    calls to collaborators (the wallet library, the RPC transport, the
    attestation service, the function host) wrapped in [try]/[catch].  The
    embedding keeps that shape: a computation is a trace of the requests it
    sent together with either the value it returned or the value it threw;
    the collaborators' answers are a [World] the computation is run in.
    Console output is not part of the model, but a conversion to a string
    made for it inside a [try] is, where it can throw. *)

From Stdlib Require Import ZArith List String Ascii Bool Lia.
From Stdlib Require Import DecimalString DecimalZ DecimalPos DecimalFacts.
From ExtLib Require Import Structures.Monad Structures.MonadExc.
Import ListNotations.
Import MonadNotation.

#[local] Set Warnings "-register-all".
#[local] Open Scope string_scope.
#[local] Open Scope Z_scope.
#[local] Open Scope monad_scope.

(** ** JavaScript values *)

Module Js.

(** The values the workflow handles.  [JNum n] is the Number value for the
    integer [n] (the double nearest to it); [JBigInt] carries the 256-bit
    quantities the contract calls return; [JError] is an instance of [Error]
    or of a subclass, with its [name] and [message] and no enumerable
    property; [JArray] is an array without holes; [JObject] is a plain object
    with its own data properties in enumeration order (what an object
    literal or [JSON.parse] builds: no property holds a function). *)
Inductive JsVal : Type :=
| JUndefined
| JNull
| JBool (b : bool)
| JNum (n : Z)
| JBigInt (n : Z)
| JStr (s : string)
| JError (name message : string)
| JArray (items : list JsVal)
| JObject (props : list (string * JsVal)).

(** Truthiness, as [if (v)] and [!v] and [a && b] test it. *)
Definition truthy (v : JsVal) : bool :=
  match v with
  | JUndefined | JNull => false
  | JBool b => b
  | JNum n | JBigInt n => negb (n =? 0)
  | JStr s => negb (s =? "")%string
  | JError _ _ | JArray _ | JObject _ => true
  end.

(** [v === "lit"] for a string literal. *)
Definition strict_eq_str (v : JsVal) (lit : string) : bool :=
  match v with
  | JStr s => (s =? lit)%string
  | _ => false
  end.

(** An environment variable is absent or a string; [!x] and [x || d] see
    the absent and the empty one as false. *)
Definition env_truthy (x : option string) : bool :=
  match x with
  | Some s => negb (s =? "")%string
  | None => false
  end.

Definition env_or (x : option string) (d : string) : string :=
  match x with
  | Some s => if (s =? "")%string then d else s
  | None => d
  end.

(** [n.toString()] of a BigInt: decimal digits, a minus sign when negative. *)
Definition Z_toString (n : Z) : string :=
  NilZero.string_of_int (Z.to_int n).

Fixpoint join (sep : string) (l : list string) : string :=
  match l with
  | [] => ""
  | [s] => s
  | s :: rest => s ++ sep ++ join sep rest
  end.

(** [o.k] on an object: the first property of that name, else [undefined]. *)
Fixpoint lookup (k : string) (props : list (string * JsVal)) : JsVal :=
  match props with
  | [] => JUndefined
  | (k', v) :: rest => if (k' =? k)%string then v else lookup k rest
  end.

(** Whether the object has an own property [k]. *)
Fixpoint has_own (k : string) (props : list (string * JsVal)) : bool :=
  match props with
  | [] => false
  | (k', _) :: rest => (k' =? k)%string || has_own k rest
  end.

End Js.
Export Js.

(** ** Numbers as strings *)

(** [Number.prototype.toString] on the integers: the double nearest to the
    integer is printed with the fewest digits that still read back as that
    double, in positional form below 10^21 and in exponent form from there. *)
Module NumberToString.

(** The double nearest to [n >= 0], ties to even; doubles have 53 bits. *)
Definition nearest_double (n : Z) : Z :=
  if n <? 2 ^ 53 then n
  else
    let e := Z.log2 n - 52 in
    let q := n / 2 ^ e in
    let r := n mod 2 ^ e in
    let half := 2 ^ (e - 1) in
    let q' := if (half <? r) || ((r =? half) && Z.odd q) then q + 1 else q in
    q' * 2 ^ e.

(** The number of decimal digits of [x > 0]. *)
Definition digits (x : Z) : Z := Z.of_nat (String.length (Z_toString x)).

(** With [k] significant digits: the value next to [x] that reads back as
    [x], the nearer of the two neighbours, the even one on a tie. *)
Definition with_digits (x D k : Z) : option Z :=
  let p := D - k in
  if p <=? 0 then Some x
  else
    let lo := x / 10 ^ p * 10 ^ p in
    let hi := lo + 10 ^ p in
    match nearest_double lo =? x, nearest_double hi =? x with
    | true, true =>
        if x - lo <? hi - x then Some lo
        else if hi - x <? x - lo then Some hi
        else if Z.even (lo / 10 ^ p) then Some lo else Some hi
    | true, false => Some lo
    | false, true => Some hi
    | false, false => None
    end.

Fixpoint shortest (x D : Z) (ks : list Z) : Z :=
  match ks with
  | [] => x
  | k :: rest =>
      match with_digits x D k with
      | Some v => v
      | None => shortest x D rest
      end
  end.

Fixpoint drop_zeros (s : string) : string :=
  match s with
  | String "0" rest => drop_zeros rest
  | _ => s
  end.

Fixpoint rev_string (s acc : string) : string :=
  match s with
  | EmptyString => acc
  | String c rest => rev_string rest (String c acc)
  end.

(** The digits of [v] without the zeros at their end. *)
Definition significand (v : Z) : string :=
  rev_string (drop_zeros (rev_string (Z_toString v) "")) "".

(** A double [x > 0] that is an integer. *)
Definition positive (x : Z) : string :=
  if 2 ^ 1024 <=? x then "Infinity"
  else
    let v := if x <? 2 ^ 53 then x
             else shortest x (digits x)
                    [1; 2; 3; 4; 5; 6; 7; 8; 9; 10; 11; 12; 13; 14; 15; 16; 17] in
    let n := digits v in
    if n <=? 21 then Z_toString v
    else
      match significand v with
      | String c EmptyString => String c ("e+" ++ Z_toString (n - 1))
      | String c more => String c ("." ++ more ++ "e+" ++ Z_toString (n - 1))
      | EmptyString => "0"
      end.

Definition Number_toString (n : Z) : string :=
  match n with
  | 0 => "0"
  | Z.pos _ => positive (nearest_double n)
  | Z.neg _ => "-" ++ positive (nearest_double (- n))
  end.

End NumberToString.
Export NumberToString.

(** ** Completions and asynchronous computations *)

(** What an awaited call settles to: a value, or a thrown value. *)
Inductive Completion (A : Type) : Type :=
| Return (a : A)
| Throw (e : JsVal).
Arguments Return {A} a.
Arguments Throw {A} e.

#[export] Instance Monad_Completion : Monad Completion :=
  {| ret := fun _ a => Return a;
     bind := fun _ _ c k => match c with
                            | Return a => k a
                            | Throw e => Throw e
                            end |}.

#[export] Instance Exc_Completion : MonadExc JsVal Completion :=
  {| raise := fun _ e => Throw e;
     catch := fun _ c h => match c with
                           | Return a => Return a
                           | Throw e => h e
                           end |}.

(** The requests a computation sends to its collaborators, in order. *)
Inductive Effect : Type :=
| EGetBalance (address : string)
| EHttpGet (url : string)
| ECallPyth
| EGetUpdateFee (pythAddress : string) (data : list string)
| ESendUpdate (data : list string) (value : Z)
| EWait (hash : string)
| ECallGetUnderlyingPrice (cToken : JsVal)
| ECallAssetPrices (asset : JsVal)
| EInvoke (FunctionName InvocationType Payload : string)
| ESetTimeout (delay : Z).

(** An [async] function body: the requests sent, and how it settled. *)
Definition Async (A : Type) : Type := (list Effect * Completion A)%type.

Definition trace {A} (m : Async A) : list Effect := fst m.
Definition outcome {A} (m : Async A) : Completion A := snd m.

#[export] Instance Monad_Async : Monad Async :=
  {| ret := fun _ a => ([], Return a);
     bind := fun _ _ m k =>
       match snd m with
       | Return a => ((fst m ++ fst (k a))%list, snd (k a))
       | Throw e => (fst m, Throw e)
       end |}.

(** [try { m } catch (e) { h e }]: the requests of [m] were sent whether or
    not it threw. *)
#[export] Instance Exc_Async : MonadExc JsVal Async :=
  {| raise := fun _ e => ([], Throw e);
     catch := fun _ m h =>
       match snd m with
       | Return a => m
       | Throw e => ((fst m ++ fst (h e))%list, snd (h e))
       end |}.

(** A local computation that may throw sends nothing. *)
Definition local {A} (c : Completion A) : Async A := ([], c).

(** A request and the collaborator's answer to it. *)
Definition request {A} (e : Effect) (answer : Completion A) : Async A := ([e], answer).

(** The delays of the timers armed along a trace, in order. *)
Fixpoint timers (t : list Effect) : list Z :=
  match t with
  | [] => []
  | ESetTimeout d :: rest => d :: timers rest
  | _ :: rest => timers rest
  end.

(** The requests to the function host along a trace, in order. *)
Fixpoint invocations (t : list Effect) : list Effect :=
  match t with
  | [] => []
  | EInvoke name type payload :: rest => EInvoke name type payload :: invocations rest
  | _ :: rest => invocations rest
  end.

(** ** Conversion to a string, property access, [map], [JSON.stringify] *)

(** What the engine throws when an object has no way to become a string. *)
Definition cannot_convert : JsVal :=
  JError "TypeError" "Cannot convert object to primitive value".

(** [Error.prototype.toString]. *)
Definition Error_toString (name message : string) : string :=
  if (name =? "")%string then message
  else if (message =? "")%string then name
  else name ++ ": " ++ message.

(** [String(v)], which is also what a template literal does to [v].  An
    array joins the conversions of its elements, [undefined] and [null]
    counting as empty.  A plain object answers ["[object Object]"] through
    [Object.prototype.toString], unless it has a [toString] of its own: that
    one is no function, [valueOf] then gives the object back, and the
    conversion throws a [TypeError]. *)
Fixpoint String_ (v : JsVal) : Completion string :=
  match v with
  | JUndefined => Return "undefined"
  | JNull => Return "null"
  | JBool true => Return "true"
  | JBool false => Return "false"
  | JNum n => Return (Number_toString n)
  | JBigInt n => Return (Z_toString n)
  | JStr s => Return s
  | JError name message => Return (Error_toString name message)
  | JArray items =>
      parts <- (fix elements (l : list JsVal) : Completion (list string) :=
                  match l with
                  | [] => Return []
                  | x :: rest =>
                      s <- match x with
                           | JUndefined | JNull => Return ""
                           | _ => String_ x
                           end ;;
                      more <- elements rest ;;
                      ret (s :: more)
                  end) items ;;
      ret (join "," parts)
  | JObject props =>
      if has_own "toString" props then Throw cannot_convert
      else Return "[object Object]"
  end.

(** [v.k] on a value of unknown shape, for the names the code reads of the
    attestation service's body ([binary], [data]), which no string, number,
    boolean, array or error has.  Reading a property of [undefined] or [null]
    throws a [TypeError]; the message is the engine's (here V8's) and nothing
    below depends on its text. *)
Definition getProp (v : JsVal) (k : string) : Completion JsVal :=
  match v with
  | JUndefined =>
      Throw (JError "TypeError"
               ("Cannot read properties of undefined (reading '" ++ k ++ "')"))
  | JNull =>
      Throw (JError "TypeError"
               ("Cannot read properties of null (reading '" ++ k ++ "')"))
  | JObject props => Return (lookup k props)
  | JError name message =>
      Return (if (k =? "message")%string then JStr message
              else if (k =? "name")%string then JStr name
              else JUndefined)
  | _ => Return JUndefined
  end.

(** [for each x of l: f x], stopping at the first throw. *)
Fixpoint mapM {A B} (f : A -> Completion B) (l : list A) : Completion (list B) :=
  match l with
  | [] => Return []
  | x :: rest =>
      y <- f x ;;
      ys <- mapM f rest ;;
      ret (y :: ys)
  end.

(** [v.map(f)]: [v] has to be an array. *)
Definition array_map {B} (name : string) (f : JsVal -> Completion B) (v : JsVal)
  : Completion (list B) :=
  match v with
  | JArray items => mapM f items
  | JUndefined =>
      Throw (JError "TypeError" "Cannot read properties of undefined (reading 'map')")
  | JNull =>
      Throw (JError "TypeError" "Cannot read properties of null (reading 'map')")
  | _ => Throw (JError "TypeError" (name ++ ".map is not a function"))
  end.

Module Json.

Definition dquote : ascii := "034"%char.

Definition hex_digit (n : nat) : ascii :=
  nth n ["0"; "1"; "2"; "3"; "4"; "5"; "6"; "7"; "8"; "9";
         "a"; "b"; "c"; "d"; "e"; "f"]%char "0"%char.

(** The escape of one character inside a JSON string. *)
Definition escape_char (c : ascii) : string :=
  let n := nat_of_ascii c in
  if (n =? 34)%nat then String "\" (String dquote "")
  else if (n =? 92)%nat then "\\"
  else if (n =? 8)%nat then "\b"
  else if (n =? 12)%nat then "\f"
  else if (n =? 10)%nat then "\n"
  else if (n =? 13)%nat then "\r"
  else if (n =? 9)%nat then "\t"
  else if (n <? 32)%nat then
    "\u00" ++ String (hex_digit (n / 16)) (String (hex_digit (n mod 16)) "")
  else String c "".

Fixpoint escape (s : string) : string :=
  match s with
  | EmptyString => ""
  | String c rest => escape_char c ++ escape rest
  end.

Definition quote (s : string) : string :=
  String dquote (escape s) ++ String dquote "".

(** A number in JSON: its string, [null] when it is not finite. *)
Definition number (n : Z) : string :=
  let s := Number_toString n in
  if (s =? "Infinity")%string || (s =? "-Infinity")%string then "null" else s.

(** [JSON.stringify(v)]: [None] is the [undefined] it gives for [undefined];
    a BigInt makes it throw; an [Error] has no enumerable property. *)
Fixpoint stringify (v : JsVal) : Completion (option string) :=
  match v with
  | JUndefined => Return None
  | JNull => Return (Some "null")
  | JBool true => Return (Some "true")
  | JBool false => Return (Some "false")
  | JNum n => Return (Some (number n))
  | JBigInt _ => Throw (JError "TypeError" "Do not know how to serialize a BigInt")
  | JStr s => Return (Some (quote s))
  | JError _ _ => Return (Some "{}")
  | JArray items =>
      parts <- (fix elems (l : list JsVal) : Completion (list string) :=
                  match l with
                  | [] => Return []
                  | x :: rest =>
                      sx <- stringify x ;;
                      srest <- elems rest ;;
                      ret (match sx with Some s => s | None => "null" end :: srest)
                  end) items ;;
      ret (Some ("[" ++ join "," parts ++ "]"))
  | JObject props =>
      parts <- (fix members (l : list (string * JsVal)) : Completion (list string) :=
                  match l with
                  | [] => Return []
                  | (k, x) :: rest =>
                      sx <- stringify x ;;
                      srest <- members rest ;;
                      ret (match sx with
                           | Some s => (quote k ++ ":" ++ s) :: srest
                           | None => srest
                           end)
                  end) props ;;
      ret (Some ("{" ++ join "," parts ++ "}"))
  end.

(** The value of the expression [JSON.stringify(v)]. *)
Definition JSON_stringify (v : JsVal) : Completion JsVal :=
  r <- stringify v ;;
  ret (match r with Some s => JStr s | None => JUndefined end).

End Json.
Export Json.

(** ** The collaborators *)

(** [receipt.blockNumber] is all the code reads of a receipt. *)
Record TransactionReceipt : Type := { blockNumber : Z }.

(** The sent transaction: its [hash], and what [tx.wait()] settles to. *)
Record TransactionResponse : Type :=
  { hash : string;
    wait : Completion TransactionReceipt }.

(** The answers of everything outside the workflow during one run: the
    environment variables, the wallet library, the RPC endpoint, the
    attestation service, the contracts, the function host, the clock. *)
Record World : Type :=
  { PRIVATE_KEY_TEST : option string;
    AWS_EXECUTION_ENV : option string;
    AWS_LAMBDA_FUNCTION_NAME : option string;
    (* new ethers.Wallet(key, provider).address; throws on a malformed key *)
    Wallet_address : string -> Completion string;
    (* provider.getBalance(address) *)
    getBalance : string -> Completion Z;
    (* the body (response.data) of axios.get(url) *)
    axios_get : string -> Completion JsVal;
    (* oracleContract.pyth() *)
    pyth : Completion string;
    (* new ethers.Contract(pythAddress, PYTH_ABI, provider).getUpdateFee(data) *)
    getUpdateFee : string -> list string -> Completion Z;
    (* oracleContract.updatePythPrices(data, { value }) *)
    updatePythPrices : list string -> Z -> Completion TransactionResponse;
    (* oracleContract.getUnderlyingPrice(cToken) *)
    oracle_getUnderlyingPrice : JsVal -> Completion Z;
    (* oracleContract.assetPrices(asset) *)
    oracle_assetPrices : JsVal -> Completion Z;
    (* new AWS.Lambda().invoke({ FunctionName, ... }).promise() *)
    lambda_invoke : string -> Completion unit;
    (* Date.now() before and after the awaited cycle *)
    Date_now_start : Z;
    Date_now_end : Z }.

(** ** What the three files share, word for word *)

Definition ETH_USD_PRICE_ID : string :=
  "0xff61491a931112ddf1bd8147cd1b641375f79f5825126d665480874634fd0ace".
Definition USDC_USD_PRICE_ID : string :=
  "0xeaa020c61cc479712813461ce153894a96a6c00b21ed0cfc2798d1f9a9e9c94a".

Definition hermesUrl : string :=
  "https://hermes.pyth.network/v2/updates/price/latest?ids[]="
  ++ ETH_USD_PRICE_ID ++ "&ids[]=" ++ USDC_USD_PRICE_ID.
Arguments hermesUrl : simpl never.

(** [hexString.startsWith("0x")]: only a string has the method. *)
Definition startsWith_0x (hexString : JsVal) : Completion (bool * string) :=
  match hexString with
  | JStr s => Return (prefix "0x" s, s)
  | JUndefined =>
      Throw (JError "TypeError"
               "Cannot read properties of undefined (reading 'startsWith')")
  | JNull =>
      Throw (JError "TypeError"
               "Cannot read properties of null (reading 'startsWith')")
  | _ => Throw (JError "TypeError" "hexString.startsWith is not a function")
  end.

(** The callback of [rawData.map]:
    [if (!hexString.startsWith("0x")) hexString = "0x" + hexString; return hexString]. *)
Definition addPrefix (hexString : JsVal) : Completion string :=
  '(starts, s) <- startsWith_0x hexString ;;
  ret (if negb starts then "0x" ++ s else s).

(** [hermesResponse.data.binary.data] and the [map] over it. *)
Definition priceUpdateData_of (body : JsVal) : Completion (list string) :=
  binary <- getProp body "binary" ;;
  rawData <- getProp binary "data" ;;
  array_map "rawData" addPrefix rawData.

(** The normalization on an array that holds strings only. *)
Definition normalize (rawData : list string) : list string :=
  map (fun hexString => if negb (prefix "0x" hexString)
                        then "0x" ++ hexString else hexString) rawData.

(** [formatError] (absent from the earlier compiled module): the message of
    an [Error], else [String(error)], which can throw. *)
Definition formatError (error : JsVal) : Completion string :=
  match error with
  | JError _ message => Return message
  | _ => String_ error
  end.

(** The result objects. *)
Definition success_hash (h : string) : JsVal :=
  JObject [("success", JBool true); ("hash", JStr h)].
Definition success_price (p : JsVal) : JsVal :=
  JObject [("success", JBool true); ("price", p)].
Definition failure (e : JsVal) : JsVal :=
  JObject [("success", JBool false); ("error", e)].

(** The response objects of the handlers. *)
Definition response (statusCode : Z) (body : JsVal) : JsVal :=
  JObject [("statusCode", JNum statusCode); ("body", body)].

(** The first steps of every [updateOraclePrices]: the credential check and
    the wallet. *)
Definition require_key (w : World) (message : string) : Completion string :=
  match PRIVATE_KEY_TEST w with
  | Some key => if negb (key =? "")%string then Return key
                else Throw (JError "Error" message)
  | None => Throw (JError "Error" message)
  end.

(** The [catch] block of every operation of the script and of the managed
    build: [return { success: false, error: formatError(error) }]. *)
Definition report (error : JsVal) : Async JsVal :=
  description <- local (formatError error) ;;
  ret (failure (JStr description)).

(** ** [src/src/update-oracle.ts]: the direct script *)

Module Ts.

Definition UPDATE_INTERVAL : Z := 45 * 1000.

(** The [try] block of [updateOraclePrices].  The balance and
    [receipt.blockNumber] only go to the console; the object returned holds
    [success] and [hash]. *)
Definition updateOraclePrices_try (w : World) : Async JsVal :=
  PRIVATE_KEY <- local (require_key w
      "PRIVATE_KEY_TEST environment variable is not set. Please set it in .env file.") ;;
  address <- local (Wallet_address w PRIVATE_KEY) ;;
  balance <- request (EGetBalance address) (getBalance w address) ;;
  body <- request (EHttpGet hermesUrl) (axios_get w hermesUrl) ;;
  priceUpdateData <- local (priceUpdateData_of body) ;;
  pythAddress <- request ECallPyth (pyth w) ;;
  updateFee <- request (EGetUpdateFee pythAddress priceUpdateData)
                       (getUpdateFee w pythAddress priceUpdateData) ;;
  tx <- request (ESendUpdate priceUpdateData updateFee)
                (updatePythPrices w priceUpdateData updateFee) ;;
  receipt <- request (EWait (hash tx)) (wait tx) ;;
  ret (success_hash (hash tx)).

Definition updateOraclePrices (w : World) : Async JsVal :=
  catch (updateOraclePrices_try w) report.

(** The [try] block of [getUnderlyingPrice].  Its first statement prints
    the address in a template literal, which converts it to a string;
    [ethers.formatUnits(price, 18)] only goes to the console; the object
    returned holds [price.toString()]. *)
Definition getUnderlyingPrice_try (w : World) (cTokenAddress : JsVal) : Async JsVal :=
  _ <- local (String_ cTokenAddress) ;;
  price <- request (ECallGetUnderlyingPrice cTokenAddress)
                   (oracle_getUnderlyingPrice w cTokenAddress) ;;
  ret (success_price (JStr (Z_toString price))).

Definition getUnderlyingPrice (w : World) (cTokenAddress : JsVal) : Async JsVal :=
  catch (getUnderlyingPrice_try w cTokenAddress) report.

Definition getAssetPrice_try (w : World) (assetAddress : JsVal) : Async JsVal :=
  _ <- local (String_ assetAddress) ;;
  price <- request (ECallAssetPrices assetAddress)
                   (oracle_assetPrices w assetAddress) ;;
  ret (success_price (JStr (Z_toString price))).

Definition getAssetPrice (w : World) (assetAddress : JsVal) : Async JsVal :=
  catch (getAssetPrice_try w assetAddress) report.

(** [runUpdate] around an arbitrary awaited cycle: the body of the [try]
    reads the clock, awaits the cycle, reads the clock again and arms the
    timer; the [catch] arms it with the fixed delay. *)
Definition runUpdate_around (cycle : Async JsVal) (startTime endTime : Z) : Async unit :=
  catch
    (_ <- cycle ;;
     let executionTime := endTime - startTime in
     let timeUntilNext := Z.max 500 (UPDATE_INTERVAL - executionTime) in
     request (ESetTimeout timeUntilNext) (Return tt))
    (fun error => request (ESetTimeout 10000) (Return tt)).

(** [runUpdate] itself awaits [updateOraclePrices()]. *)
Definition runUpdate (w : World) : Async unit :=
  runUpdate_around (updateOraclePrices w) (Date_now_start w) (Date_now_end w).

(** [startContinuousUpdates]: the first [runUpdate] and those the timers
    start, one per world of [cycles]; the result is every cycle's trace. *)
Fixpoint startContinuousUpdates (cycles : list World) : list (list Effect) :=
  match cycles with
  | [] => []
  | w :: later => trace (runUpdate w) :: startContinuousUpdates later
  end.

(** An event is the object the host built from the JSON payload of the
    invocation; [event.k] is [undefined] when it has no [k].  The handler's
    first statement prints [JSON.stringify(event)], which returns on such an
    object, and is left out.  The operation the event selects: *)
Definition dispatch (w : World) (event : list (string * JsVal)) : Async JsVal :=
  if strict_eq_str (lookup "command" event) "price"
     && truthy (lookup "address" event)
  then getUnderlyingPrice w (lookup "address" event)
  else if strict_eq_str (lookup "command" event) "asset-price"
          && truthy (lookup "address" event)
  then getAssetPrice w (lookup "address" event)
  else updateOraclePrices w.

Definition handler (w : World) (event : list (string * JsVal)) : Async JsVal :=
  catch
    (result <- dispatch w event ;;
     body <- local (JSON_stringify result) ;;
     ret (response 200 body))
    (fun error =>
       description <- local (formatError error) ;;
       body <- local (JSON_stringify (failure (JStr description))) ;;
       ret (response 500 body)).

End Ts.

(** ** [src/dist/update-oracle.js]: the managed-function build *)

Module Dist.

Definition UPDATE_INTERVAL_MS : Z := 45000.

(** [new AWS.Lambda()] and the [invoke] are one request to the host; the
    payload is [JSON.stringify({})]. *)
Definition scheduleNextInvocation (w : World) : Async unit :=
  catch
    (let FunctionName := env_or (AWS_LAMBDA_FUNCTION_NAME w) "pythOracleUpdater" in
     request (EInvoke FunctionName "Event" "{}") (lambda_invoke w FunctionName))
    (fun error => ret tt).

Definition updateOraclePrices_try (w : World) : Async JsVal :=
  PRIVATE_KEY <- local (require_key w
      "PRIVATE_KEY_TEST environment variable is not set. Please set it in Lambda configuration.") ;;
  address <- local (Wallet_address w PRIVATE_KEY) ;;
  balance <- request (EGetBalance address) (getBalance w address) ;;
  body <- request (EHttpGet hermesUrl) (axios_get w hermesUrl) ;;
  priceUpdateData <- local (priceUpdateData_of body) ;;
  pythAddress <- request ECallPyth (pyth w) ;;
  updateFee <- request (EGetUpdateFee pythAddress priceUpdateData)
                       (getUpdateFee w pythAddress priceUpdateData) ;;
  tx <- request (ESendUpdate priceUpdateData updateFee)
                (updatePythPrices w priceUpdateData updateFee) ;;
  receipt <- request (EWait (hash tx)) (wait tx) ;;
  ret (success_hash (hash tx)).

Definition updateOraclePrices (w : World) : Async JsVal :=
  catch (updateOraclePrices_try w) report.

Definition getUnderlyingPrice_try (w : World) (cTokenAddress : JsVal) : Async JsVal :=
  _ <- local (String_ cTokenAddress) ;;
  price <- request (ECallGetUnderlyingPrice cTokenAddress)
                   (oracle_getUnderlyingPrice w cTokenAddress) ;;
  ret (success_price (JStr (Z_toString price))).

Definition getUnderlyingPrice (w : World) (cTokenAddress : JsVal) : Async JsVal :=
  catch (getUnderlyingPrice_try w cTokenAddress) report.

Definition getAssetPrice_try (w : World) (assetAddress : JsVal) : Async JsVal :=
  _ <- local (String_ assetAddress) ;;
  price <- request (ECallAssetPrices assetAddress)
                   (oracle_assetPrices w assetAddress) ;;
  ret (success_price (JStr (Z_toString price))).

Definition getAssetPrice (w : World) (assetAddress : JsVal) : Async JsVal :=
  catch (getAssetPrice_try w assetAddress) report.

(** The test before each [scheduleNextInvocation]:
    [process.env.AWS_EXECUTION_ENV && !event.noReschedule]. *)
Definition reschedules (w : World) (event : list (string * JsVal)) : bool :=
  env_truthy (AWS_EXECUTION_ENV w) && negb (truthy (lookup "noReschedule" event)).

(** The operation the event selects. *)
Definition dispatch (w : World) (event : list (string * JsVal)) : Async JsVal :=
  if strict_eq_str (lookup "command" event) "price"
     && truthy (lookup "address" event)
  then getUnderlyingPrice w (lookup "address" event)
  else if strict_eq_str (lookup "command" event) "asset-price"
          && truthy (lookup "address" event)
  then getAssetPrice w (lookup "address" event)
  else updateOraclePrices w.

Definition handler (w : World) (event : list (string * JsVal)) : Async JsVal :=
  let isScheduledEvent := strict_eq_str (lookup "source" event) "aws.events" in
  catch
    (result <- dispatch w event ;;
     (if reschedules w event then scheduleNextInvocation w else ret tt) ;;
     body <- local (JSON_stringify result) ;;
     ret (response 200 body))
    (fun error =>
       (if reschedules w event then scheduleNextInvocation w else ret tt) ;;
       description <- local (formatError error) ;;
       body <- local (JSON_stringify (failure (JStr description))) ;;
       ret (response 500 body)).

End Dist.

(** ** [src/unnamed/part_000]: the earlier compiled module *)

Module Compiled.

(** No balance query here, and the caught value itself is the [error]. *)
Definition updateOraclePrices_try (w : World) : Async JsVal :=
  PRIVATE_KEY <- local (require_key w
      "PRIVATE_KEY_TEST environment variable is not set. Please set it in your .env file.") ;;
  address <- local (Wallet_address w PRIVATE_KEY) ;;
  body <- request (EHttpGet hermesUrl) (axios_get w hermesUrl) ;;
  priceUpdateData <- local (priceUpdateData_of body) ;;
  pythAddress <- request ECallPyth (pyth w) ;;
  updateFee <- request (EGetUpdateFee pythAddress priceUpdateData)
                       (getUpdateFee w pythAddress priceUpdateData) ;;
  tx <- request (ESendUpdate priceUpdateData updateFee)
                (updatePythPrices w priceUpdateData updateFee) ;;
  receipt <- request (EWait (hash tx)) (wait tx) ;;
  ret (success_hash (hash tx)).

Definition updateOraclePrices (w : World) : Async JsVal :=
  catch (updateOraclePrices_try w) (fun error => ret (failure error)).

(** The integer itself is the [price]. *)
Definition getUnderlyingPrice_try (w : World) (cTokenAddress : JsVal) : Async JsVal :=
  _ <- local (String_ cTokenAddress) ;;
  price <- request (ECallGetUnderlyingPrice cTokenAddress)
                   (oracle_getUnderlyingPrice w cTokenAddress) ;;
  ret (success_price (JBigInt price)).

Definition getUnderlyingPrice (w : World) (cTokenAddress : JsVal) : Async JsVal :=
  catch (getUnderlyingPrice_try w cTokenAddress) (fun error => ret (failure error)).

Definition getAssetPrice_try (w : World) (assetAddress : JsVal) : Async JsVal :=
  _ <- local (String_ assetAddress) ;;
  price <- request (ECallAssetPrices assetAddress)
                   (oracle_assetPrices w assetAddress) ;;
  ret (success_price (JBigInt price)).

Definition getAssetPrice (w : World) (assetAddress : JsVal) : Async JsVal :=
  catch (getAssetPrice_try w assetAddress) (fun error => ret (failure error)).

End Compiled.

(** ** Worlds to run the workflow in *)

Module Worlds.

(** A body as the attestation service sends it: one blob without the marker,
    one with it. *)
Definition hermes_body : JsVal :=
  JObject [("binary", JObject [("encoding", JStr "hex");
                               ("data", JArray [JStr "504e4155"; JStr "0x504e4156"])]);
           ("parsed", JArray [])].

(** Everything answers: the cycle is confirmed in block 7 after 120 ms. *)
Definition world_ok : World :=
  {| PRIVATE_KEY_TEST := Some "0x0123";
     AWS_EXECUTION_ENV := None;
     AWS_LAMBDA_FUNCTION_NAME := None;
     Wallet_address := fun _ => Return "0xA11CE";
     getBalance := fun _ => Return (10 ^ 18);
     axios_get := fun _ => Return hermes_body;
     pyth := Return "0xFEED";
     getUpdateFee := fun _ data => Return (Z.of_nat (List.length data));
     updatePythPrices := fun _ _ =>
       Return {| hash := "0xabc"; wait := Return {| blockNumber := 7 |} |};
     oracle_getUnderlyingPrice := fun _ => Return (10 ^ 18);
     oracle_assetPrices := fun _ => Return (2500 * 10 ^ 18);
     lambda_invoke := fun _ => Return tt;
     Date_now_start := 1000;
     Date_now_end := 1120 |}.

Definition with_key (k : option string) (w : World) : World :=
  {| PRIVATE_KEY_TEST := k;
     AWS_EXECUTION_ENV := AWS_EXECUTION_ENV w;
     AWS_LAMBDA_FUNCTION_NAME := AWS_LAMBDA_FUNCTION_NAME w;
     Wallet_address := Wallet_address w;
     getBalance := getBalance w;
     axios_get := axios_get w;
     pyth := pyth w;
     getUpdateFee := getUpdateFee w;
     updatePythPrices := updatePythPrices w;
     oracle_getUnderlyingPrice := oracle_getUnderlyingPrice w;
     oracle_assetPrices := oracle_assetPrices w;
     lambda_invoke := lambda_invoke w;
     Date_now_start := Date_now_start w;
     Date_now_end := Date_now_end w |}.

Definition with_clock (startTime endTime : Z) (w : World) : World :=
  {| PRIVATE_KEY_TEST := PRIVATE_KEY_TEST w;
     AWS_EXECUTION_ENV := AWS_EXECUTION_ENV w;
     AWS_LAMBDA_FUNCTION_NAME := AWS_LAMBDA_FUNCTION_NAME w;
     Wallet_address := Wallet_address w;
     getBalance := getBalance w;
     axios_get := axios_get w;
     pyth := pyth w;
     getUpdateFee := getUpdateFee w;
     updatePythPrices := updatePythPrices w;
     oracle_getUnderlyingPrice := oracle_getUnderlyingPrice w;
     oracle_assetPrices := oracle_assetPrices w;
     lambda_invoke := lambda_invoke w;
     Date_now_start := startTime;
     Date_now_end := endTime |}.

Definition with_getBalance (answer : string -> Completion Z) (w : World) : World :=
  {| PRIVATE_KEY_TEST := PRIVATE_KEY_TEST w;
     AWS_EXECUTION_ENV := AWS_EXECUTION_ENV w;
     AWS_LAMBDA_FUNCTION_NAME := AWS_LAMBDA_FUNCTION_NAME w;
     Wallet_address := Wallet_address w;
     getBalance := answer;
     axios_get := axios_get w;
     pyth := pyth w;
     getUpdateFee := getUpdateFee w;
     updatePythPrices := updatePythPrices w;
     oracle_getUnderlyingPrice := oracle_getUnderlyingPrice w;
     oracle_assetPrices := oracle_assetPrices w;
     lambda_invoke := lambda_invoke w;
     Date_now_start := Date_now_start w;
     Date_now_end := Date_now_end w |}.

(** The host: whether the process runs under it, and its answer to [invoke]. *)
Definition with_host (execution_env : option string)
    (answer : string -> Completion unit) (w : World) : World :=
  {| PRIVATE_KEY_TEST := PRIVATE_KEY_TEST w;
     AWS_EXECUTION_ENV := execution_env;
     AWS_LAMBDA_FUNCTION_NAME := AWS_LAMBDA_FUNCTION_NAME w;
     Wallet_address := Wallet_address w;
     getBalance := getBalance w;
     axios_get := axios_get w;
     pyth := pyth w;
     getUpdateFee := getUpdateFee w;
     updatePythPrices := updatePythPrices w;
     oracle_getUnderlyingPrice := oracle_getUnderlyingPrice w;
     oracle_assetPrices := oracle_assetPrices w;
     lambda_invoke := answer;
     Date_now_start := Date_now_start w;
     Date_now_end := Date_now_end w |}.

End Worlds.

(** Worlds with another attestation service, or another answer to the
    transaction. *)
Module MoreWorlds.

Definition with_axios_get (answer : string -> Completion JsVal) (w : World) : World :=
  {| PRIVATE_KEY_TEST := PRIVATE_KEY_TEST w;
     AWS_EXECUTION_ENV := AWS_EXECUTION_ENV w;
     AWS_LAMBDA_FUNCTION_NAME := AWS_LAMBDA_FUNCTION_NAME w;
     Wallet_address := Wallet_address w;
     getBalance := getBalance w;
     axios_get := answer;
     pyth := pyth w;
     getUpdateFee := getUpdateFee w;
     updatePythPrices := updatePythPrices w;
     oracle_getUnderlyingPrice := oracle_getUnderlyingPrice w;
     oracle_assetPrices := oracle_assetPrices w;
     lambda_invoke := lambda_invoke w;
     Date_now_start := Date_now_start w;
     Date_now_end := Date_now_end w |}.

Definition with_updatePythPrices
    (answer : list string -> Z -> Completion TransactionResponse) (w : World) : World :=
  {| PRIVATE_KEY_TEST := PRIVATE_KEY_TEST w;
     AWS_EXECUTION_ENV := AWS_EXECUTION_ENV w;
     AWS_LAMBDA_FUNCTION_NAME := AWS_LAMBDA_FUNCTION_NAME w;
     Wallet_address := Wallet_address w;
     getBalance := getBalance w;
     axios_get := axios_get w;
     pyth := pyth w;
     getUpdateFee := getUpdateFee w;
     updatePythPrices := answer;
     oracle_getUnderlyingPrice := oracle_getUnderlyingPrice w;
     oracle_assetPrices := oracle_assetPrices w;
     lambda_invoke := lambda_invoke w;
     Date_now_start := Date_now_start w;
     Date_now_end := Date_now_end w |}.

Definition with_readers (answer : JsVal -> Completion Z) (w : World) : World :=
  {| PRIVATE_KEY_TEST := PRIVATE_KEY_TEST w;
     AWS_EXECUTION_ENV := AWS_EXECUTION_ENV w;
     AWS_LAMBDA_FUNCTION_NAME := AWS_LAMBDA_FUNCTION_NAME w;
     Wallet_address := Wallet_address w;
     getBalance := getBalance w;
     axios_get := axios_get w;
     pyth := pyth w;
     getUpdateFee := getUpdateFee w;
     updatePythPrices := updatePythPrices w;
     oracle_getUnderlyingPrice := answer;
     oracle_assetPrices := answer;
     lambda_invoke := lambda_invoke w;
     Date_now_start := Date_now_start w;
     Date_now_end := Date_now_end w |}.

(** The transaction is sent and then reverts: [tx.wait()] throws. *)
Definition world_reverted : World :=
  with_updatePythPrices
    (fun _ _ => Return {| hash := "0xdead";
                          wait := Throw (JError "Error" "transaction execution reverted") |})
    Worlds.world_ok.

(** The attestation service answers with a body that has no [binary]. *)
Definition world_malformed : World :=
  with_axios_get (fun _ => Return (JObject [("error", JStr "rate limited")]))
    Worlds.world_ok.

(** A value that cannot become a string: the object [{ toString: null }]. *)
Definition unprintable : JsVal := JObject [("toString", JNull)].

(** The balance query rejects with that value. *)
Definition world_unprintable : World :=
  Worlds.with_getBalance (fun _ => Throw unprintable) Worlds.world_ok.

(** The balance query rejects with an [Error]. *)
Definition world_timeout : World :=
  Worlds.with_getBalance (fun _ => Throw (JError "Error" "timeout")) Worlds.world_ok.

End MoreWorlds.

(** ** The command line *)

(** The block each file runs when it is the main module: it looks at
    [process.argv.slice(2)], starts one operation and ends the process from
    the promise's [then] or [catch]. *)
Module Cli.

(** How the process ends: [process.exit(code)], or not at all while timers
    are pending. *)
Inductive Exit : Type :=
| ExitCode (code : Z)
| StaysAlive.

(** [args[i]]: a string, or [undefined] past the end. *)
Definition arg (args : list string) (i : nat) : JsVal :=
  match nth_error args i with
  | Some s => JStr s
  | None => JUndefined
  end.

(** [p.then(() => process.exit(0)).catch((error) => { ...; process.exit(1) })]:
    the requests of [p], and the exit code. *)
Definition then_exit {A} (p : Async A) : list (list Effect) * Exit :=
  ([trace p],
   match outcome p with
   | Return _ => ExitCode 0
   | Throw _ => ExitCode 1
   end).

(** [src/src/update-oracle.ts].  In the continuous mode [w] is the world of
    the first cycle and [later] those of the cycles the timers start; the
    [catch] on [startContinuousUpdates()] exits with 1 if the awaited first
    [runUpdate()] throws. *)
Definition ts_main (w : World) (later : list World) (args : list string)
  : list (list Effect) * Exit :=
  if strict_eq_str (arg args 0) "price" && truthy (arg args 1)
  then then_exit (Ts.getUnderlyingPrice w (arg args 1))
  else if strict_eq_str (arg args 0) "asset-price" && truthy (arg args 1)
  then then_exit (Ts.getAssetPrice w (arg args 1))
  else if strict_eq_str (arg args 0) "continuous"
  then match outcome (Ts.runUpdate w) with
       | Return _ => (Ts.startContinuousUpdates (w :: later), StaysAlive)
       | Throw _ => ([trace (Ts.runUpdate w)], ExitCode 1)
       end
  else then_exit (Ts.updateOraclePrices w).

(** [src/dist/update-oracle.js]: no continuous mode. *)
Definition dist_main (w : World) (args : list string)
  : list (list Effect) * Exit :=
  if strict_eq_str (arg args 0) "price" && truthy (arg args 1)
  then then_exit (Dist.getUnderlyingPrice w (arg args 1))
  else if strict_eq_str (arg args 0) "asset-price" && truthy (arg args 1)
  then then_exit (Dist.getAssetPrice w (arg args 1))
  else then_exit (Dist.updateOraclePrices w).

(** [src/unnamed/part_000]: no continuous mode either. *)
Definition compiled_main (w : World) (args : list string)
  : list (list Effect) * Exit :=
  if strict_eq_str (arg args 0) "price" && truthy (arg args 1)
  then then_exit (Compiled.getUnderlyingPrice w (arg args 1))
  else if strict_eq_str (arg args 0) "asset-price" && truthy (arg args 1)
  then then_exit (Compiled.getAssetPrice w (arg args 1))
  else then_exit (Compiled.updateOraclePrices w).

End Cli.

(** ** The vocabulary of the properties *)

(** The conversion of an array's element. *)
Definition element_string (x : JsVal) : Completion string :=
  match x with
  | JUndefined | JNull => Return ""
  | _ => String_ x
  end.

(** The shapes of a result: [{ success: true, hash }], [{ success: true,
    price }] and [{ success: false, error }] with a description. *)
Inductive Tagged : JsVal -> Prop :=
| Tagged_hash (h : string) :
    Tagged (JObject [("success", JBool true); ("hash", JStr h)])
| Tagged_price (p : string) :
    Tagged (JObject [("success", JBool true); ("price", JStr p)])
| Tagged_failure (description : string) :
    Tagged (JObject [("success", JBool false); ("error", JStr description)]).

(** An operation settles to a tagged result: it returns, it does not throw. *)
Definition resolves_tagged (m : Async JsVal) : Prop :=
  exists r, outcome m = Return r /\ Tagged r.

(** [r.k] of a result, and of the result an operation settled to. *)
Definition prop (k : string) (r : JsVal) : JsVal :=
  match r with
  | JObject props => lookup k props
  | _ => JUndefined
  end.

Definition field (k : string) (m : Async JsVal) : JsVal :=
  match outcome m with
  | Return r => prop k r
  | Throw _ => JUndefined
  end.

(** A raised value has a description: [formatError] returns on it. *)
Definition describable (e : JsVal) : Prop :=
  exists description, formatError e = Return description.

(** What an operation of the script or of the managed build settles to
    once its [try] block has raised [error]: the failure with the
    description of [error], or what [formatError] throws. *)
Definition caught (error : JsVal) : Completion JsVal :=
  match formatError error with
  | Return description =>
      Return (JObject [("success", JBool false); ("error", JStr description)])
  | Throw t => Throw t
  end.

(** An operation against its [try] block: what the block returns is
    returned, with the success flag set; what it raises is [caught]. *)
Definition settles_tagged (try_block operation : Async JsVal) : Prop :=
  match outcome try_block with
  | Return r =>
      outcome operation = Return r /\ prop "success" r = JBool true /\ Tagged r
  | Throw e => outcome operation = caught e
  end.

(** Every value a collaborator of [w] throws has a description (as the
    instances of [Error] have that the libraries throw). *)
Definition describable_world (w : World) : Prop :=
  (forall key e, Wallet_address w key = Throw e -> describable e) /\
  (forall address e, getBalance w address = Throw e -> describable e) /\
  (forall url e, axios_get w url = Throw e -> describable e) /\
  (forall e, pyth w = Throw e -> describable e) /\
  (forall pythAddress data e,
     getUpdateFee w pythAddress data = Throw e -> describable e) /\
  (forall data fee e, updatePythPrices w data fee = Throw e -> describable e) /\
  (forall data fee tx e,
     updatePythPrices w data fee = Return tx -> wait tx = Throw e -> describable e) /\
  (forall address e, oracle_getUnderlyingPrice w address = Throw e -> describable e) /\
  (forall address e, oracle_assetPrices w address = Throw e -> describable e).

(** Which requests a computation sends. *)
Definition sends_only {A} (allowed : Effect -> bool) (m : Async A) : Prop :=
  forallb allowed (trace m) = true.

(** The requests of the operations: to the chain and to the attestation
    service, never to the timer or to the host. *)
Definition chain_request (e : Effect) : bool :=
  match e with
  | EInvoke _ _ _ | ESetTimeout _ => false
  | _ => true
  end.

(** The transactions sent along a trace: their data and attached payment. *)
Fixpoint sends (t : list Effect) : list (list string * Z) :=
  match t with
  | [] => []
  | ESendUpdate data value :: rest => (data, value) :: sends rest
  | _ :: rest => sends rest
  end.

(** Reading a decimal string: the part before the point and, when there is
    a point, the part after it. *)
Fixpoint split_point (s : string) : string * option string :=
  match s with
  | EmptyString => (EmptyString, None)
  | String c rest =>
      if Ascii.eqb c "." then (EmptyString, Some rest)
      else let (whole, fraction) := split_point rest in (String c whole, fraction)
  end.

(** The number a decimal string denotes, as [(m, k)] for [m / 10^k]. *)
Definition decimal_value (s : string) : option (Z * nat) :=
  match split_point s with
  | (whole, None) =>
      option_map (fun d => (Z.of_int d, 0%nat)) (NilZero.int_of_string whole)
  | (whole, Some fraction) =>
      option_map (fun d => (Z.of_int d, String.length fraction))
                 (NilZero.int_of_string (whole ++ fraction))
  end.

(** The spec's "consistent with the raw integer divided by 10^18":
    [s] denotes [raw / 10^decimals]. *)
Definition denotes_scaled (s : string) (raw : Z) (decimals : nat) : bool :=
  match decimal_value s with
  | Some (m, k) => m * 10 ^ Z.of_nat decimals =? raw * 10 ^ Z.of_nat k
  | None => false
  end.

(** The cycle run in [w] sends [tx] and sees it confirmed by [receipt]:
    every awaited step up to [tx.wait()] answers. *)
Definition confirmed_in (w : World) (tx : TransactionResponse)
    (receipt : TransactionReceipt) : Prop :=
  exists key address balance body data pythAddress fee,
    PRIVATE_KEY_TEST w = Some key /\ key <> "" /\
    Wallet_address w key = Return address /\
    getBalance w address = Return balance /\
    axios_get w hermesUrl = Return body /\
    priceUpdateData_of body = Return data /\
    pyth w = Return pythAddress /\
    getUpdateFee w pythAddress data = Return fee /\
    updatePythPrices w data fee = Return tx /\
    wait tx = Return receipt.

(** The values of the properties of a result object. *)
Definition values_of (result : JsVal) : list JsVal :=
  match result with
  | JObject props => map snd props
  | _ => []
  end.

(** The balance query, where the script reaches it, answers. *)
Definition balance_answers (w : World) : Prop :=
  forall key address,
    PRIVATE_KEY_TEST w = Some key -> Wallet_address w key = Return address ->
    exists balance, getBalance w address = Return balance.

(** What the three [updateOraclePrices] do from the fetch on. *)
Definition fetch_quote_submit (w : World) : Async JsVal :=
  body <- request (EHttpGet hermesUrl) (axios_get w hermesUrl) ;;
  priceUpdateData <- local (priceUpdateData_of body) ;;
  pythAddress <- request ECallPyth (pyth w) ;;
  updateFee <- request (EGetUpdateFee pythAddress priceUpdateData)
                       (getUpdateFee w pythAddress priceUpdateData) ;;
  tx <- request (ESendUpdate priceUpdateData updateFee)
                (updatePythPrices w priceUpdateData updateFee) ;;
  receipt <- request (EWait (hash tx)) (wait tx) ;;
  ret (success_hash (hash tx)).

(** The cycle run in [w] gets as far as sending [tx] with [data] and [fee]:
    every awaited step up to [updatePythPrices] answers. *)
Definition sent_in (w : World) (address : string) (pythAddress : string)
    (data : list string) (fee : Z) (tx : TransactionResponse) : Prop :=
  exists key balance body,
    PRIVATE_KEY_TEST w = Some key /\ key <> "" /\
    Wallet_address w key = Return address /\
    getBalance w address = Return balance /\
    axios_get w hermesUrl = Return body /\
    priceUpdateData_of body = Return data /\
    pyth w = Return pythAddress /\
    getUpdateFee w pythAddress data = Return fee /\
    updatePythPrices w data fee = Return tx.

(** The cycle run in [w] gets the body [body] from the attestation service:
    the credential, the wallet, the balance query and the fetch answer. *)
Definition fetched_in (w : World) (address : string) (body : JsVal) : Prop :=
  exists key balance,
    PRIVATE_KEY_TEST w = Some key /\ key <> "" /\
    Wallet_address w key = Return address /\
    getBalance w address = Return balance /\
    axios_get w hermesUrl = Return body.

(** A result of the earlier compiled module and the result of the script
    that describes it: the same hash; the decimal string of the integer
    price; the description of the caught value. *)
Inductive Described : JsVal -> JsVal -> Prop :=
| Described_hash (h : string) :
    Described (success_hash h) (success_hash h)
| Described_price (p : Z) :
    Described (success_price (JBigInt p)) (success_price (JStr (Z_toString p)))
| Described_failure (e : JsVal) (description : string) :
    formatError e = Return description ->
    Described (failure e) (failure (JStr description)).

(** The compiled module's outcome against the script's: both return, and
    the script's result describes the compiled module's; or the compiled
    module returns a failure whose caught value has no description, and the
    script throws what [formatError] threw on it. *)
Definition described_by (compiled script : Async JsVal) : Prop :=
  exists rc,
    outcome compiled = Return rc /\
    match outcome script with
    | Return rt => Described rc rt
    | Throw t => exists e, rc = failure e /\ formatError e = Throw t
    end.

(** Induction on values, through the elements of arrays. *)
Section JsVal_induction.
Variable P : JsVal -> Prop.
Hypothesis P_undefined : P JUndefined.
Hypothesis P_null : P JNull.
Hypothesis P_bool : forall b, P (JBool b).
Hypothesis P_num : forall n, P (JNum n).
Hypothesis P_bigint : forall n, P (JBigInt n).
Hypothesis P_str : forall s, P (JStr s).
Hypothesis P_error : forall name message, P (JError name message).
Hypothesis P_array : forall items, Forall P items -> P (JArray items).
Hypothesis P_object : forall props, P (JObject props).

Fixpoint JsVal_array_ind (v : JsVal) : P v :=
  match v with
  | JUndefined => P_undefined
  | JNull => P_null
  | JBool b => P_bool b
  | JNum n => P_num n
  | JBigInt n => P_bigint n
  | JStr s => P_str s
  | JError name message => P_error name message
  | JArray items =>
      P_array items
        ((fix all (l : list JsVal) : Forall P l :=
            match l with
            | [] => Forall_nil P
            | x :: rest => Forall_cons x (JsVal_array_ind x) (all rest)
            end) items)
  | JObject props => P_object props
  end.
End JsVal_induction.

(** * Properties *)

(** ** How [bind] and [catch] settle *)

Section AsyncLaws.
Context {A B : Type}.
Implicit Types (m : Async A) (k : A -> Async B) (h : JsVal -> Async A).

Lemma bind_Return m k a :
  outcome m = Return a ->
  bind m k = ((trace m ++ trace (k a))%list, outcome (k a)).
Proof. unfold outcome, trace; cbn; intros ->; reflexivity. Qed.

Lemma bind_Throw m k e :
  outcome m = Throw e -> bind m k = (trace m, Throw e).
Proof. unfold outcome, trace; cbn; intros ->; reflexivity. Qed.

Lemma bind_Return_inv m k b :
  outcome (bind m k) = Return b ->
  exists a, outcome m = Return a /\ outcome (k a) = Return b.
Proof.
  destruct (outcome m) as [a|e] eqn:Hm.
  - rewrite (bind_Return m k a Hm); cbn; eauto.
  - rewrite (bind_Throw m k e Hm); cbn; discriminate.
Qed.

Lemma catch_Return m h a :
  outcome m = Return a -> catch m h = m.
Proof. unfold outcome; cbn; intros ->; reflexivity. Qed.

Lemma catch_Throw m h e :
  outcome m = Throw e ->
  catch m h = ((trace m ++ trace (h e))%list, outcome (h e)).
Proof. unfold outcome, trace; cbn; intros ->; reflexivity. Qed.

Lemma outcome_bind m k :
  outcome (bind m k)
  = match outcome m with
    | Return a => outcome (k a)
    | Throw e => Throw e
    end.
Proof. unfold outcome; cbn; destruct (snd m); reflexivity. Qed.

Lemma outcome_catch m h :
  outcome (catch m h)
  = match outcome m with
    | Return a => Return a
    | Throw e => outcome (h e)
    end.
Proof.
  unfold outcome; cbn; destruct (snd m) as [a|e] eqn:E; [exact E | reflexivity].
Qed.

Lemma trace_bind m k :
  trace (bind m k)
  = (trace m ++ match outcome m with
                | Return a => trace (k a)
                | Throw _ => []
                end)%list.
Proof.
  unfold trace, outcome; cbn. destruct (snd m); cbn;
    [reflexivity | rewrite List.app_nil_r; reflexivity].
Qed.

Lemma trace_catch m h :
  trace (catch m h)
  = (trace m ++ match outcome m with
                | Return _ => []
                | Throw e => trace (h e)
                end)%list.
Proof.
  unfold trace, outcome; cbn. destruct (snd m); cbn;
    [rewrite List.app_nil_r; reflexivity | reflexivity].
Qed.

Lemma outcome_local (c : Completion A) : outcome (local c) = c.
Proof. reflexivity. Qed.

Lemma outcome_request (e : Effect) (c : Completion A) : outcome (request e c) = c.
Proof. reflexivity. Qed.

Lemma trace_local (c : Completion A) : trace (local c) = [].
Proof. reflexivity. Qed.

Lemma trace_request (e : Effect) (c : Completion A) : trace (request e c) = [e].
Proof. reflexivity. Qed.

Lemma trace_ret (a : A) : trace (ret a : Async A) = [].
Proof. reflexivity. Qed.

Lemma outcome_ret (a : A) : outcome (ret a : Async A) = Return a.
Proof. reflexivity. Qed.

Lemma async_eq m (t : list Effect) (o : Completion A) :
  trace m = t -> outcome m = o -> m = (t, o).
Proof. destruct m; cbn; intros -> ->; reflexivity. Qed.
End AsyncLaws.

(** Rewrite the trace and the outcome of a chain as far as its answers are
    known. *)
Ltac settle :=
  repeat (rewrite ?trace_catch, ?outcome_catch, ?trace_bind, ?outcome_bind,
            ?trace_local, ?outcome_local, ?trace_request, ?outcome_request,
            ?trace_ret, ?outcome_ret;
          cbv beta iota).

(** Peel the awaited steps off a body that returned. *)
Ltac returned H :=
  repeat (let a := fresh "a" in let Ha := fresh "Ha" in
          apply bind_Return_inv in H; destruct H as (a & Ha & H));
  cbn in H.

(** ** Which values have a description *)

Lemma String_array (items : list JsVal) :
  String_ (JArray items)
  = (parts <- mapM element_string items ;; ret (join "," parts)).
Proof.
  cbn [String_].
  lazymatch goal with
  | |- bind (?F items) _ = _ =>
      assert (E : forall l, F l = mapM element_string l)
  end.
  { induction l as [|x rest IH]; [reflexivity | ].
    cbn [mapM]. rewrite <- IH. reflexivity. }
  rewrite E. reflexivity.
Qed.

Lemma mapM_throws {A B} (f : A -> Completion B) (P : JsVal -> Prop) (l : list A) :
  Forall (fun x => forall t, f x = Throw t -> P t) l ->
  forall t, mapM f l = Throw t -> P t.
Proof.
  induction 1 as [|x rest Hx _ IH]; intros t; [discriminate | ].
  cbn [mapM]. destruct (f x) as [y|e] eqn:E; cbn.
  - destruct (mapM f rest) as [ys|e'] eqn:E'; cbn; [discriminate | ].
    intros [= <-]. apply IH. reflexivity.
  - intros [= <-]. apply Hx. reflexivity.
Qed.

(** [String(v)] throws nothing but the [TypeError] of the conversion. *)
Lemma String_throws (v : JsVal) (t : JsVal) :
  String_ v = Throw t -> t = cannot_convert.
Proof.
  revert t. induction v as [ | | [|] | | | | | items IH | props]
    using JsVal_array_ind; intros t; try discriminate.
  - rewrite String_array.
    destruct (mapM element_string items) as [parts|e] eqn:E; cbn; [discriminate | ].
    intros [= <-].
    apply (mapM_throws element_string (fun t => t = cannot_convert) items);
      [ | exact E].
    apply Forall_impl with (2 := IH).
    intros x Hx u. destruct x; try discriminate; apply Hx.
  - cbn. destruct (has_own "toString" props); [ | discriminate].
    intros [= <-]. reflexivity.
Qed.

Lemma formatError_throws (e t : JsVal) :
  formatError e = Throw t -> t = cannot_convert.
Proof. destruct e; cbn [formatError]; try discriminate; apply String_throws. Qed.

Lemma describable_Error (name message : string) : describable (JError name message).
Proof. exists message. reflexivity. Qed.

(** What [formatError] throws has a description itself. *)
Lemma thrown_by_formatError_describable (e t : JsVal) :
  formatError e = Throw t -> describable t.
Proof. intros H. rewrite (formatError_throws e t H). apply describable_Error. Qed.

(** ** Operations as [try] blocks with the reporting [catch] *)

Lemma report_outcome (error : JsVal) : outcome (report error) = caught error.
Proof.
  unfold report, caught. settle. destruct (formatError error); reflexivity.
Qed.

Lemma report_trace (error : JsVal) : trace (report error) = [].
Proof.
  unfold report. settle. destruct (formatError error); reflexivity.
Qed.

Lemma reported_outcome (m : Async JsVal) :
  outcome (catch m report)
  = match outcome m with
    | Return r => Return r
    | Throw e => caught e
    end.
Proof.
  rewrite outcome_catch. destruct (outcome m); [reflexivity | apply report_outcome].
Qed.

Lemma reported_trace (m : Async JsVal) : trace (catch m report) = trace m.
Proof.
  rewrite trace_catch. destruct (outcome m);
    [ | rewrite report_trace]; apply List.app_nil_r.
Qed.

Lemma kept_outcome (m : Async JsVal) :
  outcome (catch m (fun error => ret (failure error)))
  = match outcome m with
    | Return r => Return r
    | Throw e => Return (failure e)
    end.
Proof. rewrite outcome_catch. destruct (outcome m); reflexivity. Qed.

Lemma kept_trace (m : Async JsVal) :
  trace (catch m (fun error => ret (failure error))) = trace m.
Proof. rewrite trace_catch. destruct (outcome m); apply List.app_nil_r. Qed.

Lemma caught_describable (e : JsVal) (description : string) :
  formatError e = Return description ->
  caught e = Return (JObject [("success", JBool false); ("error", JStr description)]).
Proof. unfold caught. intros ->. reflexivity. Qed.

Lemma caught_throws (e t : JsVal) :
  caught e = Throw t -> formatError e = Throw t.
Proof. unfold caught. destruct (formatError e); [discriminate | ]. intros [= <-]. reflexivity. Qed.

Lemma caught_returns (e r : JsVal) :
  caught e = Return r ->
  exists description,
    formatError e = Return description /\
    r = JObject [("success", JBool false); ("error", JStr description)].
Proof.
  unfold caught. destruct (formatError e) as [d|]; [ | discriminate].
  intros [= <-]. eauto.
Qed.

(** ** Results are tagged; what escapes an operation *)

Lemma ts_update_try_returns w r :
  outcome (Ts.updateOraclePrices_try w) = Return r -> exists h, r = success_hash h.
Proof. intros H. unfold Ts.updateOraclePrices_try in H. returned H.
       injection H as <-. eauto. Qed.

Lemma dist_update_try_returns w r :
  outcome (Dist.updateOraclePrices_try w) = Return r -> exists h, r = success_hash h.
Proof. intros H. unfold Dist.updateOraclePrices_try in H. returned H.
       injection H as <-. eauto. Qed.

Lemma compiled_update_try_returns w r :
  outcome (Compiled.updateOraclePrices_try w) = Return r ->
  exists h, r = success_hash h.
Proof. intros H. unfold Compiled.updateOraclePrices_try in H. returned H.
       injection H as <-. eauto. Qed.

Lemma ts_underlying_try_returns w a r :
  outcome (Ts.getUnderlyingPrice_try w a) = Return r ->
  exists price, oracle_getUnderlyingPrice w a = Return price /\
                r = success_price (JStr (Z_toString price)).
Proof. intros H. unfold Ts.getUnderlyingPrice_try in H. returned H.
       injection H as <-. eauto. Qed.

Lemma ts_asset_try_returns w a r :
  outcome (Ts.getAssetPrice_try w a) = Return r ->
  exists price, oracle_assetPrices w a = Return price /\
                r = success_price (JStr (Z_toString price)).
Proof. intros H. unfold Ts.getAssetPrice_try in H. returned H.
       injection H as <-. eauto. Qed.

(** The readers of the managed build are those of the script. *)
Lemma dist_underlying_is_ts w a :
  Dist.getUnderlyingPrice w a = Ts.getUnderlyingPrice w a.
Proof. reflexivity. Qed.

Lemma dist_asset_is_ts w a : Dist.getAssetPrice w a = Ts.getAssetPrice w a.
Proof. reflexivity. Qed.

Lemma reported_settles_tagged (m : Async JsVal) :
  (forall r, outcome m = Return r -> prop "success" r = JBool true /\ Tagged r) ->
  settles_tagged m (catch m report).
Proof.
  intros H. unfold settles_tagged. rewrite reported_outcome.
  destruct (outcome m) as [r|e]; [ | reflexivity].
  destruct (H r eq_refl). auto.
Qed.

Lemma ts_update_settles w :
  settles_tagged (Ts.updateOraclePrices_try w) (Ts.updateOraclePrices w).
Proof.
  apply reported_settles_tagged. intros r H.
  destruct (ts_update_try_returns w r H) as (h & ->). split; [reflexivity | constructor].
Qed.

Lemma dist_update_settles w :
  settles_tagged (Dist.updateOraclePrices_try w) (Dist.updateOraclePrices w).
Proof.
  apply reported_settles_tagged. intros r H.
  destruct (dist_update_try_returns w r H) as (h & ->). split; [reflexivity | constructor].
Qed.

Lemma ts_underlying_settles w a :
  settles_tagged (Ts.getUnderlyingPrice_try w a) (Ts.getUnderlyingPrice w a).
Proof.
  apply reported_settles_tagged. intros r H.
  destruct (ts_underlying_try_returns w a r H) as (p & _ & ->).
  split; [reflexivity | constructor].
Qed.

Lemma ts_asset_settles w a :
  settles_tagged (Ts.getAssetPrice_try w a) (Ts.getAssetPrice w a).
Proof.
  apply reported_settles_tagged. intros r H.
  destruct (ts_asset_try_returns w a r H) as (p & _ & ->).
  split; [reflexivity | constructor].
Qed.

(** An operation that returns, returns a tagged result; one that throws,
    throws the [TypeError] of the conversion. *)
Lemma settled_returned (m op : Async JsVal) (r : JsVal) :
  settles_tagged m op -> outcome op = Return r -> Tagged r.
Proof.
  unfold settles_tagged. destruct (outcome m) as [r'|e].
  - intros (-> & _ & T) [= <-]. exact T.
  - intros -> H. destruct (caught_returns e r H) as (d & _ & ->). constructor.
Qed.

Lemma settled_thrown (m op : Async JsVal) (t : JsVal) :
  settles_tagged m op -> outcome op = Throw t ->
  t = cannot_convert /\ exists e, outcome m = Throw e /\ formatError e = Throw t.
Proof.
  unfold settles_tagged. destruct (outcome m) as [r'|e].
  - intros (-> & _) [=].
  - intros -> H. apply caught_throws in H.
    split; [apply (formatError_throws e t H) | eauto].
Qed.

Lemma settled_describable (m op : Async JsVal) :
  settles_tagged m op ->
  (forall e, outcome m = Throw e -> describable e) ->
  resolves_tagged op.
Proof.
  unfold settles_tagged, resolves_tagged. destruct (outcome m) as [r|e].
  - intros (-> & _ & T) _. eauto.
  - intros -> H. destruct (H e eq_refl) as (d & Hd).
    rewrite (caught_describable e d Hd). eexists. split; [reflexivity | constructor].
Qed.

(** What the steps of the cycle raise by themselves are [TypeError]s. *)
Lemma addPrefix_throws (x t : JsVal) :
  addPrefix x = Throw t -> exists message, t = JError "TypeError" message.
Proof. destruct x; cbn; try discriminate; intros [= <-]; eauto. Qed.

Lemma priceUpdateData_throws (body t : JsVal) :
  priceUpdateData_of body = Throw t -> exists message, t = JError "TypeError" message.
Proof.
  unfold priceUpdateData_of.
  destruct (getProp body "binary") as [binary|e] eqn:Hb; cbn.
  - destruct (getProp binary "data") as [rawData|e] eqn:Hd; cbn.
    + destruct rawData; cbn; try (intros [= <-]; eauto).
      apply (mapM_throws addPrefix (fun t => exists m, t = JError "TypeError" m)).
      apply Forall_forall. intros x _ u. apply addPrefix_throws.
    + intros [= <-]. destruct binary; cbn in Hd; try discriminate;
        injection Hd as <-; eauto.
  - intros [= <-]. destruct body; cbn in Hb; try discriminate;
      injection Hb as <-; eauto.
Qed.

Lemma require_key_throws w message t :
  require_key w message = Throw t -> t = JError "Error" message.
Proof.
  unfold require_key. destruct (PRIVATE_KEY_TEST w) as [k|].
  - destruct (negb (k =? "")%string); [discriminate | intros [= <-]; reflexivity].
  - intros [= <-]; reflexivity.
Qed.

(** In a world whose collaborators throw describable values, so do the
    [try] blocks. *)
Lemma ts_update_try_raises w e :
  describable_world w ->
  outcome (Ts.updateOraclePrices_try w) = Throw e -> describable e.
Proof.
  intros (Hw & Hb & Hg & Hp & Hf & Hs & Hr & _ & _).
  unfold Ts.updateOraclePrices_try. settle.
  destruct (require_key w _) as [key|] eqn:E0; settle;
    [ | intros [= <-]; rewrite (require_key_throws _ _ _ E0); apply describable_Error].
  destruct (Wallet_address w key) as [address|] eqn:E1; settle;
    [ | intros [= <-]; eauto].
  destruct (getBalance w address) as [balance|] eqn:E2; settle;
    [ | intros [= <-]; eauto].
  destruct (axios_get w hermesUrl) as [body|] eqn:E3; settle;
    [ | intros [= <-]; eauto].
  destruct (priceUpdateData_of body) as [data|] eqn:E4; settle;
    [ | intros [= <-]; destruct (priceUpdateData_throws _ _ E4) as (m & ->);
        apply describable_Error].
  destruct (pyth w) as [pythAddress|] eqn:E5; settle; [ | intros [= <-]; eauto].
  destruct (getUpdateFee w pythAddress data) as [fee|] eqn:E6; settle;
    [ | intros [= <-]; eauto].
  destruct (updatePythPrices w data fee) as [tx|] eqn:E7; settle;
    [ | intros [= <-]; eauto].
  destruct (wait tx) as [receipt|] eqn:E8; settle; [discriminate | ].
  intros [= <-]; eauto.
Qed.

Lemma dist_update_try_raises w e :
  describable_world w ->
  outcome (Dist.updateOraclePrices_try w) = Throw e -> describable e.
Proof.
  intros (Hw & Hb & Hg & Hp & Hf & Hs & Hr & _ & _).
  unfold Dist.updateOraclePrices_try. settle.
  destruct (require_key w _) as [key|] eqn:E0; settle;
    [ | intros [= <-]; rewrite (require_key_throws _ _ _ E0); apply describable_Error].
  destruct (Wallet_address w key) as [address|] eqn:E1; settle;
    [ | intros [= <-]; eauto].
  destruct (getBalance w address) as [balance|] eqn:E2; settle;
    [ | intros [= <-]; eauto].
  destruct (axios_get w hermesUrl) as [body|] eqn:E3; settle;
    [ | intros [= <-]; eauto].
  destruct (priceUpdateData_of body) as [data|] eqn:E4; settle;
    [ | intros [= <-]; destruct (priceUpdateData_throws _ _ E4) as (m & ->);
        apply describable_Error].
  destruct (pyth w) as [pythAddress|] eqn:E5; settle; [ | intros [= <-]; eauto].
  destruct (getUpdateFee w pythAddress data) as [fee|] eqn:E6; settle;
    [ | intros [= <-]; eauto].
  destruct (updatePythPrices w data fee) as [tx|] eqn:E7; settle;
    [ | intros [= <-]; eauto].
  destruct (wait tx) as [receipt|] eqn:E8; settle; [discriminate | ].
  intros [= <-]; eauto.
Qed.

Lemma ts_underlying_try_raises w a e :
  describable_world w ->
  outcome (Ts.getUnderlyingPrice_try w a) = Throw e -> describable e.
Proof.
  intros (_ & _ & _ & _ & _ & _ & _ & Hu & _).
  unfold Ts.getUnderlyingPrice_try. settle.
  destruct (String_ a) as [s|t] eqn:E0; settle.
  - destruct (oracle_getUnderlyingPrice w a) eqn:E1; [discriminate | ].
    intros [= <-]; eauto.
  - intros [= <-]. rewrite (String_throws a t E0). apply describable_Error.
Qed.

Lemma ts_asset_try_raises w a e :
  describable_world w ->
  outcome (Ts.getAssetPrice_try w a) = Throw e -> describable e.
Proof.
  intros (_ & _ & _ & _ & _ & _ & _ & _ & Ha).
  unfold Ts.getAssetPrice_try. settle.
  destruct (String_ a) as [s|t] eqn:E0; settle.
  - destruct (oracle_assetPrices w a) eqn:E1; [discriminate | ].
    intros [= <-]; eauto.
  - intros [= <-]. rewrite (String_throws a t E0). apply describable_Error.
Qed.

Lemma ts_update_tagged w :
  describable_world w -> resolves_tagged (Ts.updateOraclePrices w).
Proof.
  intros H. apply (settled_describable _ _ (ts_update_settles w)).
  intros e. apply ts_update_try_raises, H.
Qed.

Lemma dist_update_tagged w :
  describable_world w -> resolves_tagged (Dist.updateOraclePrices w).
Proof.
  intros H. apply (settled_describable _ _ (dist_update_settles w)).
  intros e. apply dist_update_try_raises, H.
Qed.

Lemma ts_underlying_tagged w a :
  describable_world w -> resolves_tagged (Ts.getUnderlyingPrice w a).
Proof.
  intros H. apply (settled_describable _ _ (ts_underlying_settles w a)).
  intros e. apply ts_underlying_try_raises, H.
Qed.

Lemma ts_asset_tagged w a :
  describable_world w -> resolves_tagged (Ts.getAssetPrice w a).
Proof.
  intros H. apply (settled_describable _ _ (ts_asset_settles w a)).
  intros e. apply ts_asset_try_raises, H.
Qed.

(** The earlier compiled module always returns, with the caught value or
    the integer itself in the result. *)
Lemma compiled_operations_return w a :
  (exists r, outcome (Compiled.updateOraclePrices w) = Return r) /\
  (exists r, outcome (Compiled.getUnderlyingPrice w a) = Return r) /\
  (exists r, outcome (Compiled.getAssetPrice w a) = Return r).
Proof.
  unfold Compiled.updateOraclePrices, Compiled.getUnderlyingPrice,
    Compiled.getAssetPrice.
  rewrite !kept_outcome.
  repeat split;
    match goal with |- context [match ?c with Return _ => _ | Throw _ => _ end] =>
      destruct c end; eauto.
Qed.



Lemma world_timeout_describable : describable_world MoreWorlds.world_timeout.
Proof.
  unfold describable_world.
  repeat apply conj; intros *; try (intros H; discriminate H).
  - intros [= <-]. apply describable_Error.
  - intros [= <-] H. discriminate H.
Qed.


(** ** The normalization of the attestation service's blobs *)

Lemma prefix_0x_prepended (s : string) : prefix "0x" ("0x" ++ s) = true.
Proof. destruct s; reflexivity. Qed.

Lemma mapM_addPrefix (rawData : list string) :
  mapM addPrefix (map JStr rawData) = Return (normalize rawData).
Proof.
  induction rawData as [|hexString rest IH]; [reflexivity | ].
  cbn [map mapM normalize]. cbn in IH |- *. rewrite IH. reflexivity.
Qed.

Lemma normalize_length (rawData : list string) :
  List.length (normalize rawData) = List.length rawData.
Proof. apply length_map. Qed.

Lemma normalize_nth_error (rawData : list string) (i : nat) (hexString : string) :
  nth_error rawData i = Some hexString ->
  nth_error (normalize rawData) i
  = Some (if negb (prefix "0x" hexString) then "0x" ++ hexString else hexString).
Proof.
  intros H. unfold normalize. rewrite nth_error_map, H. reflexivity.
Qed.

Lemma normalize_all_marked (rawData : list string) :
  Forall (fun blob => prefix "0x" blob = true) (normalize rawData).
Proof.
  induction rawData as [|hexString rest IH]; [constructor | ].
  cbn [normalize map]. constructor; [ | exact IH].
  destruct (prefix "0x" hexString) eqn:E; cbn [negb];
    [exact E | apply prefix_0x_prepended].
Qed.

(** C3. When the body the attestation service returned has an array of
    strings at [binary.data], the update data is one blob per element, in
    the same order; every blob starts with [0x]; an element that already
    starts with [0x] is kept as it is, any other gets one [0x] in front. *)
Theorem normalization_one_blob_per_element
    (body binary : JsVal) (rawData : list string) :
  getProp body "binary" = Return binary ->
  getProp binary "data" = Return (JArray (map JStr rawData)) ->
  exists blobs,
    priceUpdateData_of body = Return blobs /\
    List.length blobs = List.length rawData /\
    Forall (fun blob => prefix "0x" blob = true) blobs /\
    forall i hexString, nth_error rawData i = Some hexString ->
      (prefix "0x" hexString = true -> nth_error blobs i = Some hexString) /\
      (prefix "0x" hexString = false ->
         nth_error blobs i = Some ("0x" ++ hexString)).
Proof.
  intros Hbinary Hdata. exists (normalize rawData).
  split; [ | split; [apply normalize_length | split; [apply normalize_all_marked | ]]].
  - unfold priceUpdateData_of. rewrite Hbinary. cbn. rewrite Hdata. cbn.
    apply mapM_addPrefix.
  - intros i hexString Hi.
    rewrite (normalize_nth_error _ _ _ Hi).
    split; intros ->; reflexivity.
Qed.

Lemma normalization_one_blob_per_element_witness :
  exists blobs,
    priceUpdateData_of Worlds.hermes_body = Return blobs /\
    List.length blobs = 2%nat /\
    Forall (fun blob => prefix "0x" blob = true) blobs /\
    forall i hexString,
      nth_error ["504e4155"; "0x504e4156"] i = Some hexString ->
      (prefix "0x" hexString = true -> nth_error blobs i = Some hexString) /\
      (prefix "0x" hexString = false ->
         nth_error blobs i = Some ("0x" ++ hexString)).
Proof.
  apply (normalization_one_blob_per_element Worlds.hermes_body
           (JObject [("encoding", JStr "hex");
                     ("data", JArray [JStr "504e4155"; JStr "0x504e4156"])])
           ["504e4155"; "0x504e4156"]); reflexivity.
Defined.

(** The blobs the fee quote and the transaction receive are the normalized
    ones. *)
Example update_sends_normalized_blobs :
  trace (Ts.updateOraclePrices Worlds.world_ok)
  = [EGetBalance "0xA11CE"; EHttpGet hermesUrl; ECallPyth;
     EGetUpdateFee "0xFEED" ["0x504e4155"; "0x504e4156"];
     ESendUpdate ["0x504e4155"; "0x504e4156"] 2; EWait "0xabc"].
Proof. reflexivity. Qed.

(** ** The scheduler of the continuous mode *)

Section SendsOnly.
Context {A B : Type} (allowed : Effect -> bool).

Lemma sends_only_ret (a : A) : sends_only allowed (ret a : Async A).
Proof. reflexivity. Qed.

Lemma sends_only_local (c : Completion A) : sends_only allowed (local c).
Proof. reflexivity. Qed.

Lemma sends_only_request (e : Effect) (answer : Completion A) :
  allowed e = true -> sends_only allowed (request e answer).
Proof. unfold sends_only; cbn; intros ->; reflexivity. Qed.

Lemma sends_only_bind (m : Async A) (k : A -> Async B) :
  sends_only allowed m -> (forall a, sends_only allowed (k a)) ->
  sends_only allowed (bind m k).
Proof.
  unfold sends_only; intros Hm Hk.
  destruct (outcome m) as [a|e] eqn:E.
  - rewrite (bind_Return m k a E). cbn. rewrite forallb_app, Hm. apply Hk.
  - rewrite (bind_Throw m k e E). exact Hm.
Qed.

Lemma sends_only_catch (m : Async A) (h : JsVal -> Async A) :
  sends_only allowed m -> (forall e, sends_only allowed (h e)) ->
  sends_only allowed (catch m h).
Proof.
  unfold sends_only; intros Hm Hh.
  destruct (outcome m) as [a|e] eqn:E.
  - rewrite (catch_Return m h a E). exact Hm.
  - rewrite (catch_Throw m h e E). cbn. rewrite forallb_app, Hm. apply Hh.
Qed.
End SendsOnly.

Ltac sends_only :=
  unfold report;
  repeat first
    [ apply sends_only_ret
    | apply sends_only_local
    | apply sends_only_request; reflexivity
    | apply sends_only_catch; [ | intro]
    | apply sends_only_bind; [ | intro] ].

Lemma ts_update_chain_only w : sends_only chain_request (Ts.updateOraclePrices w).
Proof. unfold Ts.updateOraclePrices, Ts.updateOraclePrices_try. sends_only. Qed.

Lemma timers_app (t u : list Effect) : timers (t ++ u) = (timers t ++ timers u)%list.
Proof.
  induction t as [|e t IH]; [reflexivity | ].
  destruct e; cbn; rewrite IH; reflexivity.
Qed.

Lemma chain_only_no_timers (t : list Effect) :
  forallb chain_request t = true -> timers t = [].
Proof.
  induction t as [|e t IH]; [reflexivity | ].
  cbn. intros H. apply andb_prop in H. destruct H as [He Ht].
  destruct e; cbn in *; auto; discriminate.
Qed.

(** The two exits of [runUpdate]. *)
Lemma runUpdate_around_returned cycle startTime endTime r :
  outcome cycle = Return r ->
  Ts.runUpdate_around cycle startTime endTime
  = ((trace cycle
      ++ [ESetTimeout (Z.max 500 (Ts.UPDATE_INTERVAL - (endTime - startTime)))])%list,
     Return tt).
Proof.
  intros H. unfold Ts.runUpdate_around.
  rewrite (bind_Return cycle _ r H). reflexivity.
Qed.

Lemma runUpdate_around_thrown cycle startTime endTime e :
  outcome cycle = Throw e ->
  Ts.runUpdate_around cycle startTime endTime
  = ((trace cycle ++ [ESetTimeout 10000])%list, Return tt).
Proof.
  intros H. unfold Ts.runUpdate_around.
  rewrite (bind_Throw cycle _ e H). reflexivity.
Qed.

(** Whichever exit it takes, [runUpdate] returns after arming one timer. *)
Lemma runUpdate_trace (w : World) :
  Ts.runUpdate w
  = ((trace (Ts.updateOraclePrices w)
      ++ [ESetTimeout
            match outcome (Ts.updateOraclePrices w) with
            | Return _ =>
                Z.max 500 (Ts.UPDATE_INTERVAL - (Date_now_end w - Date_now_start w))
            | Throw _ => 10000
            end])%list,
     Return tt).
Proof.
  unfold Ts.runUpdate.
  destruct (outcome (Ts.updateOraclePrices w)) as [r|e] eqn:E.
  - apply (runUpdate_around_returned _ _ _ r E).
  - apply (runUpdate_around_thrown _ _ _ e E).
Qed.

Lemma runUpdate_timers (w : World) :
  timers (trace (Ts.runUpdate w))
  = [match outcome (Ts.updateOraclePrices w) with
     | Return _ =>
         Z.max 500 (Ts.UPDATE_INTERVAL - (Date_now_end w - Date_now_start w))
     | Throw _ => 10000
     end].
Proof.
  rewrite runUpdate_trace. cbn [trace fst]. rewrite timers_app.
  rewrite (chain_only_no_timers _ (ts_update_chain_only w)). reflexivity.
Qed.

(** C2. After a cycle whose awaited execution completed, having taken [E]
    milliseconds, the scheduler arms exactly one timer, with delay
    [max(500, 45000 - E)]; when [E >= 45000] that delay is 500.  The cycle
    may have succeeded or have returned a failure. *)
Theorem next_cycle_delay (w : World) (r : JsVal) :
  outcome (Ts.updateOraclePrices w) = Return r ->
  let E := Date_now_end w - Date_now_start w in
  timers (trace (Ts.runUpdate w)) = [Z.max 500 (45000 - E)] /\
  (45000 <= E -> timers (trace (Ts.runUpdate w)) = [500]).
Proof.
  intros Hr. cbn zeta. rewrite runUpdate_timers, Hr.
  change Ts.UPDATE_INTERVAL with 45000.
  split; [reflexivity | ].
  intros H. f_equal. lia.
Qed.

Lemma next_cycle_delay_witness :
  let w := Worlds.with_clock 1000 61000 Worlds.world_ok in
  timers (trace (Ts.runUpdate w)) = [Z.max 500 (45000 - 60000)] /\
  timers (trace (Ts.runUpdate w)) = [500].
Proof.
  cbn zeta.
  destruct (next_cycle_delay (Worlds.with_clock 1000 61000 Worlds.world_ok)
              (success_hash "0xabc") eq_refl)
    as [Hdelay Hfloor].
  split; [exact Hdelay | apply Hfloor; cbn; lia].
Defined.

(** The cycle completes in every world whose collaborators throw values
    that have a description: the delay is then the one above. *)
Lemma next_cycle_delay_describable (w : World) :
  describable_world w ->
  timers (trace (Ts.runUpdate w))
  = [Z.max 500 (45000 - (Date_now_end w - Date_now_start w))].
Proof.
  intros H. destruct (ts_update_tagged w H) as (r & Hr & _).
  rewrite runUpdate_timers, Hr. reflexivity.
Qed.

(** The same for every cycle of the continuous mode. *)
Corollary continuous_delays (cycles : list World) :
  Forall describable_world cycles ->
  map timers (Ts.startContinuousUpdates cycles)
  = map (fun w => [Z.max 500 (45000 - (Date_now_end w - Date_now_start w))]) cycles.
Proof.
  induction 1 as [|w later Hw _ IH]; [reflexivity | ].
  cbn [Ts.startContinuousUpdates map].
  rewrite IH, (next_cycle_delay_describable w Hw). reflexivity.
Qed.

(** C1. The cycle of a process without its signing credential fails:
    [updateOraclePrices] catches the error and returns a failure result.
    [runUpdate], which awaited it for 120 ms, then arms the timer with
    [max(500, 45000 - 120) = 44880] ms, not with the 10000 ms of its
    [catch], which the failure does not reach. *)
Theorem failed_cycle_waits_regular_delay :
  let w := Worlds.with_key None Worlds.world_ok in
  outcome (Ts.updateOraclePrices w)
  = Return (failure (JStr
      "PRIVATE_KEY_TEST environment variable is not set. Please set it in .env file."))
  /\ Date_now_end w - Date_now_start w = 120
  /\ timers (trace (Ts.runUpdate w)) = [44880].
Proof. repeat split. Qed.

(** The fixed delay is what [runUpdate] arms if the awaited cycle throws,
    whatever it throws. *)
Lemma backoff_if_cycle_threw cycle startTime endTime e :
  outcome cycle = Throw e ->
  timers (trace (Ts.runUpdate_around cycle startTime endTime))
  = (timers (trace cycle) ++ [10000])%list.
Proof.
  intros H. rewrite (runUpdate_around_thrown _ _ _ e H).
  cbn [trace fst]. rewrite timers_app. reflexivity.
Qed.

(** [updateOraclePrices] throws only when [formatError] throws in its
    [catch]; no failure that has a description gets there. *)
Example backoff_reached_by_unprintable :
  outcome (Ts.updateOraclePrices MoreWorlds.world_unprintable)
  = Throw cannot_convert /\
  timers (trace (Ts.runUpdate MoreWorlds.world_unprintable)) = [10000] /\
  timers (trace (Ts.runUpdate MoreWorlds.world_timeout)) = [44880].
Proof. repeat split. Qed.

(** ** The handlers *)

(** The results of the script and of the managed build serialize: they hold
    booleans and strings only. *)
Lemma stringify_tagged (r : JsVal) :
  Tagged r -> exists s, JSON_stringify r = Return (JStr s).
Proof. intros []; eexists; reflexivity. Qed.

(** [scheduleNextInvocation] asks the host once and returns, whatever the
    host answers. *)
Lemma scheduleNextInvocation_absorbs (w : World) :
  Dist.scheduleNextInvocation w
  = ([EInvoke (env_or (AWS_LAMBDA_FUNCTION_NAME w) "pythOracleUpdater") "Event" "{}"],
     Return tt).
Proof.
  unfold Dist.scheduleNextInvocation. cbn.
  destruct (lambda_invoke w _) as [[]|e]; reflexivity.
Qed.

(** The operation an event selects is one of the three, and settles as they
    do. *)
Lemma ts_dispatch_settles w event :
  exists try_block, settles_tagged try_block (Ts.dispatch w event).
Proof.
  unfold Ts.dispatch.
  destruct (_ && _); [eexists; apply ts_underlying_settles | ].
  destruct (_ && _); [eexists; apply ts_asset_settles | ].
  eexists; apply ts_update_settles.
Qed.

Lemma dist_dispatch_settles w event :
  exists try_block, settles_tagged try_block (Dist.dispatch w event).
Proof.
  unfold Dist.dispatch.
  destruct (_ && _); [eexists; apply ts_underlying_settles | ].
  destruct (_ && _); [eexists; apply ts_asset_settles | ].
  eexists; apply dist_update_settles.
Qed.

(** What an operation throws is the [TypeError] of the conversion, which
    has a description. *)
Lemma ts_dispatch_thrown w event e :
  outcome (Ts.dispatch w event) = Throw e -> e = cannot_convert.
Proof.
  intros H. destruct (ts_dispatch_settles w event) as (m & Hm).
  apply (settled_thrown _ _ _ Hm H).
Qed.

Lemma dist_dispatch_thrown w event e :
  outcome (Dist.dispatch w event) = Throw e -> e = cannot_convert.
Proof.
  intros H. destruct (dist_dispatch_settles w event) as (m & Hm).
  apply (settled_thrown _ _ _ Hm H).
Qed.

Lemma ts_dispatch_tagged w event :
  describable_world w -> resolves_tagged (Ts.dispatch w event).
Proof.
  intros H. unfold Ts.dispatch.
  destruct (_ && _); [apply ts_underlying_tagged, H | ].
  destruct (_ && _); [apply ts_asset_tagged, H | apply ts_update_tagged, H].
Qed.

Lemma dist_dispatch_tagged w event :
  describable_world w -> resolves_tagged (Dist.dispatch w event).
Proof.
  intros H. unfold Dist.dispatch.
  destruct (_ && _); [apply (ts_underlying_tagged w _ H) | ].
  destruct (_ && _); [apply (ts_asset_tagged w _ H) | apply dist_update_tagged, H].
Qed.

(** The script's handler answers 200 with the serialized result when the
    operation returns, whichever tag the result has. *)
Lemma ts_handler_200 (w : World) (event : list (string * JsVal)) (result : JsVal) :
  outcome (Ts.dispatch w event) = Return result ->
  exists body,
    JSON_stringify result = Return (JStr body) /\
    Ts.handler w event
    = (trace (Ts.dispatch w event), Return (response 200 (JStr body))).
Proof.
  intros H. destruct (ts_dispatch_settles w event) as (m & Hm).
  destruct (stringify_tagged result (settled_returned _ _ _ Hm H)) as (body & Hb).
  exists body. split; [exact Hb | ].
  unfold Ts.handler. apply async_eq; settle; rewrite H; settle; rewrite Hb; settle;
    rewrite ?List.app_nil_r; reflexivity.
Qed.

(** It answers 500, with the failure that describes the thrown value, when
    the operation throws. *)
Lemma ts_handler_500 (w : World) (event : list (string * JsVal)) (e : JsVal) :
  outcome (Ts.dispatch w event) = Throw e ->
  exists description body,
    formatError e = Return description /\
    JSON_stringify (failure (JStr description)) = Return (JStr body) /\
    Ts.handler w event
    = (trace (Ts.dispatch w event), Return (response 500 (JStr body))).
Proof.
  intros H. pose proof (ts_dispatch_thrown w event e H) as ->.
  destruct (stringify_tagged _ (Tagged_failure "Cannot convert object to primitive value"))
    as (body & Hb).
  exists "Cannot convert object to primitive value", body.
  split; [reflexivity | split; [exact Hb | ]].
  unfold Ts.handler. apply async_eq; settle; rewrite H; settle;
    cbn [formatError cannot_convert]; settle;
    change (failure (JStr "Cannot convert object to primitive value"))
      with (JObject [("success", JBool false);
                     ("error", JStr "Cannot convert object to primitive value")]);
    rewrite ?Hb; settle; rewrite ?List.app_nil_r; reflexivity.
Qed.

(** The same for the managed build, after asking the host when its test
    says so, on either path. *)
Lemma reschedule_step (w : World) (event : list (string * JsVal)) :
  (if Dist.reschedules w event then Dist.scheduleNextInvocation w else ret tt)
  = ((if Dist.reschedules w event
      then [EInvoke (env_or (AWS_LAMBDA_FUNCTION_NAME w) "pythOracleUpdater")
                    "Event" "{}"]
      else []),
     Return tt).
Proof.
  destruct (Dist.reschedules w event);
    [apply scheduleNextInvocation_absorbs | reflexivity].
Qed.

Lemma dist_handler_200 (w : World) (event : list (string * JsVal)) (result : JsVal) :
  outcome (Dist.dispatch w event) = Return result ->
  exists body,
    JSON_stringify result = Return (JStr body) /\
    Dist.handler w event
    = ((trace (Dist.dispatch w event)
        ++ (if Dist.reschedules w event
            then [EInvoke (env_or (AWS_LAMBDA_FUNCTION_NAME w) "pythOracleUpdater")
                          "Event" "{}"]
            else []))%list,
       Return (response 200 (JStr body))).
Proof.
  intros H. destruct (dist_dispatch_settles w event) as (m & Hm).
  destruct (stringify_tagged result (settled_returned _ _ _ Hm H)) as (body & Hb).
  exists body. split; [exact Hb | ].
  unfold Dist.handler. cbn zeta. rewrite reschedule_step.
  apply async_eq; settle; rewrite H; settle; cbn [trace outcome fst snd]; settle;
    rewrite Hb; settle; rewrite ?List.app_nil_r; reflexivity.
Qed.

Lemma dist_handler_500 (w : World) (event : list (string * JsVal)) (e : JsVal) :
  outcome (Dist.dispatch w event) = Throw e ->
  exists description body,
    formatError e = Return description /\
    JSON_stringify (failure (JStr description)) = Return (JStr body) /\
    Dist.handler w event
    = ((trace (Dist.dispatch w event)
        ++ (if Dist.reschedules w event
            then [EInvoke (env_or (AWS_LAMBDA_FUNCTION_NAME w) "pythOracleUpdater")
                          "Event" "{}"]
            else []))%list,
       Return (response 500 (JStr body))).
Proof.
  intros H. pose proof (dist_dispatch_thrown w event e H) as ->.
  destruct (stringify_tagged _ (Tagged_failure "Cannot convert object to primitive value"))
    as (body & Hb).
  exists "Cannot convert object to primitive value", body.
  split; [reflexivity | split; [exact Hb | ]].
  unfold Dist.handler. cbn zeta. rewrite reschedule_step.
  apply async_eq; settle; rewrite H; settle; cbn [trace outcome fst snd]; settle;
    cbn [formatError cannot_convert]; settle;
    change (failure (JStr "Cannot convert object to primitive value"))
      with (JObject [("success", JBool false);
                     ("error", JStr "Cannot convert object to primitive value")]);
    rewrite ?Hb; settle; rewrite ?List.app_nil_r; reflexivity.
Qed.

(** The requests of the handlers, on either path. *)
Lemma ts_handler_trace (w : World) (event : list (string * JsVal)) :
  trace (Ts.handler w event) = trace (Ts.dispatch w event).
Proof.
  destruct (outcome (Ts.dispatch w event)) as [r|e] eqn:E.
  - destruct (ts_handler_200 w event r E) as (? & _ & ->). reflexivity.
  - destruct (ts_handler_500 w event e E) as (? & ? & _ & _ & ->). reflexivity.
Qed.

Lemma dist_handler_trace (w : World) (event : list (string * JsVal)) :
  trace (Dist.handler w event)
  = (trace (Dist.dispatch w event)
     ++ (if Dist.reschedules w event
         then [EInvoke (env_or (AWS_LAMBDA_FUNCTION_NAME w) "pythOracleUpdater")
                       "Event" "{}"]
         else []))%list.
Proof.
  destruct (outcome (Dist.dispatch w event)) as [r|e] eqn:E.
  - destruct (dist_handler_200 w event r E) as (? & _ & ->). reflexivity.
  - destruct (dist_handler_500 w event e E) as (? & ? & _ & _ & ->). reflexivity.
Qed.

(** C5. An event without a command, in a process without its signing
    credential: the dispatched [updateOraclePrices] fails and returns
    [{ success: false, error }]; both handlers answer with status code 200
    and that result serialized as the body, not with the 500 of their
    [catch]. *)
Theorem failed_operation_status_200 :
  let w := Worlds.with_key None Worlds.world_ok in
  exists description_ts description_dist body_ts body_dist,
    outcome (Ts.dispatch w []) = Return (failure (JStr description_ts)) /\
    JSON_stringify (failure (JStr description_ts)) = Return body_ts /\
    outcome (Ts.handler w []) = Return (response 200 body_ts) /\
    outcome (Dist.dispatch w []) = Return (failure (JStr description_dist)) /\
    JSON_stringify (failure (JStr description_dist)) = Return body_dist /\
    outcome (Dist.handler w []) = Return (response 200 body_dist).
Proof. cbn zeta. do 4 eexists. repeat split. Qed.

(** Both handlers answer 200 to every event whose operation returns, with
    either tag: so in every world whose collaborators throw values that have
    a description. *)
Lemma handlers_200_when_returned (w : World) (event : list (string * JsVal)) :
  (exists r, outcome (Ts.dispatch w event) = Return r) ->
  (exists r, outcome (Dist.dispatch w event) = Return r) ->
  (exists body, outcome (Ts.handler w event) = Return (response 200 (JStr body))) /\
  (exists body, outcome (Dist.handler w event) = Return (response 200 (JStr body))).
Proof.
  intros (rt & Ht) (rd & Hd).
  destruct (ts_handler_200 w event rt Ht) as (body & _ & ->).
  destruct (dist_handler_200 w event rd Hd) as (body' & _ & ->).
  split; eexists; reflexivity.
Qed.

(** The 500 is reached when the operation itself throws, which it does
    when [formatError] throws in its [catch]. *)
Example handler_500_reached :
  exists body,
    outcome (Ts.handler MoreWorlds.world_unprintable []) = Return (response 500 body) /\
    outcome (Dist.handler MoreWorlds.world_unprintable [])
    = Return (response 500 body) /\
    JSON_stringify (failure (JStr "Cannot convert object to primitive value"))
    = Return body.
Proof. eexists. repeat split. Qed.

(** ** Rescheduling under the function host *)

Lemma invocations_app (t u : list Effect) :
  invocations (t ++ u) = (invocations t ++ invocations u)%list.
Proof.
  induction t as [|e t IH]; [reflexivity | ].
  destruct e; cbn; rewrite IH; reflexivity.
Qed.

Lemma chain_only_no_invocations (t : list Effect) :
  forallb chain_request t = true -> invocations t = [].
Proof.
  induction t as [|e t IH]; [reflexivity | ].
  cbn. intros H. apply andb_prop in H. destruct H as [He Ht].
  destruct e; cbn in *; auto; discriminate.
Qed.

Lemma dist_dispatch_chain_only w event :
  sends_only chain_request (Dist.dispatch w event).
Proof.
  unfold Dist.dispatch.
  destruct (_ && _);
    [unfold Dist.getUnderlyingPrice, Dist.getUnderlyingPrice_try; sends_only | ].
  destruct (_ && _);
    [unfold Dist.getAssetPrice, Dist.getAssetPrice_try; sends_only | ].
  unfold Dist.updateOraclePrices, Dist.updateOraclePrices_try; sends_only.
Qed.

(** C9. The managed build's handler, once the dispatched operation has
    settled (with either tag), asks the host to invoke the function again
    exactly when the process runs under the host ([AWS_EXECUTION_ENV] is
    set) and the event's [noReschedule] is not truthy: then it sends one
    [invoke], after the operation's requests; otherwise none. *)
Theorem handler_reschedules_exactly_when
    (w : World) (event : list (string * JsVal)) :
  let again := EInvoke (env_or (AWS_LAMBDA_FUNCTION_NAME w) "pythOracleUpdater")
                       "Event" "{}" in
  let asked := env_truthy (AWS_EXECUTION_ENV w)
               && negb (truthy (lookup "noReschedule" event)) in
  trace (Dist.handler w event)
  = (trace (Dist.dispatch w event) ++ (if asked then [again] else []))%list
  /\ invocations (trace (Dist.dispatch w event)) = []
  /\ invocations (trace (Dist.handler w event)) = (if asked then [again] else []).
Proof.
  cbn zeta. rewrite dist_handler_trace.
  pose proof (chain_only_no_invocations _ (dist_dispatch_chain_only w event)) as Hq.
  rewrite invocations_app, Hq.
  unfold Dist.reschedules.
  split; [reflexivity | split; [reflexivity | ]].
  destruct (_ && _); reflexivity.
Qed.

(** C10. Whatever the host answers to the [invoke] (also when it throws),
    [scheduleNextInvocation] returns, and the handler's response is the one
    the dispatched operation determines: status code 200 and the result
    serialized when the operation returns a result; the 500 of the [catch]
    with the failure that describes the thrown value when the operation
    itself throws. *)
Theorem reschedule_failure_absorbed
    (w : World) (event : list (string * JsVal))
    (execution_env : option string) (answer : string -> Completion unit) :
  let hosted := Worlds.with_host execution_env answer w in
  outcome (Dist.scheduleNextInvocation hosted) = Return tt /\
  (forall result,
     outcome (Dist.dispatch w event) = Return result ->
     exists body,
       JSON_stringify result = Return body /\
       outcome (Dist.handler hosted event) = Return (response 200 body)) /\
  (forall e,
     outcome (Dist.dispatch w event) = Throw e ->
     exists description body,
       formatError e = Return description /\
       JSON_stringify (JObject [("success", JBool false);
                                ("error", JStr description)]) = Return body /\
       outcome (Dist.handler hosted event) = Return (response 500 body)) /\
  (describable_world w ->
   exists result body,
     outcome (Dist.dispatch w event) = Return result /\
     JSON_stringify result = Return body /\
     outcome (Dist.handler hosted event) = Return (response 200 body)) /\
  exists r, outcome (Dist.handler hosted event) = Return r.
Proof.
  cbn zeta. split; [rewrite scheduleNextInvocation_absorbs; reflexivity | ].
  assert (Hsame : Dist.dispatch (Worlds.with_host execution_env answer w) event
                  = Dist.dispatch w event) by reflexivity.
  split; [ | split; [ | split]].
  4: { destruct (outcome (Dist.dispatch (Worlds.with_host execution_env answer w) event))
         as [r|e] eqn:E.
       - destruct (dist_handler_200 _ event r E) as (body & _ & ->).
         eexists; reflexivity.
       - destruct (dist_handler_500 _ event e E) as (d & body & _ & _ & ->).
         eexists; reflexivity. }
  3: { intros Hw. destruct (dist_dispatch_tagged w event Hw) as (result & H & _).
       exists result. pose proof H as H'. rewrite <- Hsame in H'.
       destruct (dist_handler_200 _ event result H') as (body & Hb & ->).
       exists (JStr body). auto. }
  - intros result H. rewrite <- Hsame in H.
    destruct (dist_handler_200 _ event result H) as (body & Hb & ->).
    exists (JStr body). auto.
  - intros e H. rewrite <- Hsame in H.
    destruct (dist_handler_500 _ event e H) as (d & body & Hd & Hb & ->).
    exists d, (JStr body). auto.
Qed.

Lemma reschedule_failure_absorbed_witness :
  exists body,
    JSON_stringify (success_hash "0xabc") = Return body /\
    outcome (Dist.handler
               (Worlds.with_host (Some "AWS_Lambda_nodejs18.x")
                  (fun _ => Throw (JError "Error" "AccessDeniedException"))
                  Worlds.world_ok) [])
    = Return (response 200 body).
Proof.
  destruct (reschedule_failure_absorbed Worlds.world_ok []
              (Some "AWS_Lambda_nodejs18.x")
              (fun _ => Throw (JError "Error" "AccessDeniedException")))
    as (_ & H & _).
  apply (H (success_hash "0xabc")). reflexivity.
Defined.

(** Under the host, with a host that refuses the [invoke]: the request is
    sent, the refusal is absorbed, the response is the operation's. *)
Example refused_invoke_absorbed :
  let hosted := Worlds.with_host (Some "AWS_Lambda_nodejs18.x")
                  (fun _ => Throw (JError "Error" "AccessDeniedException"))
                  Worlds.world_ok in
  let event := [("command", JStr "price"); ("address", JStr "0xAAA")] in
  trace (Dist.handler hosted event)
  = [ECallGetUnderlyingPrice (JStr "0xAAA");
     EInvoke "pythOracleUpdater" "Event" "{}"] /\
  outcome (Dist.handler hosted event)
  = outcome (Dist.handler Worlds.world_ok event) /\
  trace (Dist.handler hosted (("noReschedule", JBool true) :: event))
  = [ECallGetUnderlyingPrice (JStr "0xAAA")].
Proof. repeat split. Qed.

(** ** The price the readers return *)

Example decimal_value_scaled : decimal_value "2500.75" = Some (250075, 2%nat).
Proof. reflexivity. Qed.

Example denotes_scaled_example :
  denotes_scaled "1.5" (15 * 10 ^ 17) 18 = true.
Proof. reflexivity. Qed.

Lemma split_point_digits (d : Decimal.uint) :
  split_point (NilEmpty.string_of_uint d) = (NilEmpty.string_of_uint d, None).
Proof. induction d; cbn; rewrite ?IHd; reflexivity. Qed.

Lemma split_point_toString (n : Z) :
  split_point (Z_toString n) = (Z_toString n, None).
Proof.
  unfold Z_toString.
  destruct (Z.to_int n) as [d|d]; cbn [NilZero.string_of_int].
  - destruct d; try reflexivity; apply split_point_digits.
  - cbn [split_point]. change (Ascii.eqb "-" ".") with false. cbn iota.
    replace (split_point (NilZero.string_of_uint d))
      with (NilZero.string_of_uint d, @None string); [reflexivity | ].
    destruct d; try reflexivity; symmetry; apply split_point_digits.
Qed.

(** The decimal string of an integer reads back as that integer. *)
Lemma decimal_value_toString (n : Z) :
  decimal_value (Z_toString n) = Some (n, 0%nat).
Proof.
  unfold decimal_value. rewrite split_point_toString.
  unfold Z_toString. rewrite NilZero.isi.
  - cbn [option_map]. rewrite DecimalZ.of_to. reflexivity.
  - destruct n; cbn; [discriminate | | discriminate].
    intros [= H]. exact (DecimalPos.Unsigned.to_uint_nonnil _ H).
  - destruct n; cbn; [discriminate | discriminate | ].
    intros [= H]. exact (DecimalPos.Unsigned.to_uint_nonnil _ H).
Qed.

Lemma toString_scaled_iff_zero (n : Z) :
  denotes_scaled (Z_toString n) n 18 = true <-> n = 0.
Proof.
  unfold denotes_scaled. rewrite decimal_value_toString.
  rewrite Z.eqb_eq.
  change (10 ^ Z.of_nat 18) with 1000000000000000000.
  change (10 ^ Z.of_nat 0) with 1.
  lia.
Qed.

(** A reader makes its contract read only after it could print the
    address. *)
Lemma ts_underlying_read_made w address :
  In (ECallGetUnderlyingPrice address) (trace (Ts.getUnderlyingPrice w address)) ->
  exists s, String_ address = Return s.
Proof.
  unfold Ts.getUnderlyingPrice. rewrite reported_trace.
  unfold Ts.getUnderlyingPrice_try. settle.
  destruct (String_ address) as [s|t]; [eauto | intros []].
Qed.

Lemma ts_asset_read_made w address :
  In (ECallAssetPrices address) (trace (Ts.getAssetPrice w address)) ->
  exists s, String_ address = Return s.
Proof.
  unfold Ts.getAssetPrice. rewrite reported_trace.
  unfold Ts.getAssetPrice_try. settle.
  destruct (String_ address) as [s|t]; [eauto | intros []].
Qed.

Lemma ts_underlying_returned w address s raw :
  String_ address = Return s ->
  oracle_getUnderlyingPrice w address = Return raw ->
  Ts.getUnderlyingPrice w address
  = ([ECallGetUnderlyingPrice address],
     Return (success_price (JStr (Z_toString raw)))).
Proof.
  intros Hs H. unfold Ts.getUnderlyingPrice.
  apply async_eq; [rewrite reported_trace | rewrite reported_outcome];
    unfold Ts.getUnderlyingPrice_try; settle; rewrite Hs; settle; rewrite H;
    reflexivity.
Qed.

Lemma ts_asset_returned w address s raw :
  String_ address = Return s ->
  oracle_assetPrices w address = Return raw ->
  Ts.getAssetPrice w address
  = ([ECallAssetPrices address],
     Return (success_price (JStr (Z_toString raw)))).
Proof.
  intros Hs H. unfold Ts.getAssetPrice.
  apply async_eq; [rewrite reported_trace | rewrite reported_outcome];
    unfold Ts.getAssetPrice_try; settle; rewrite Hs; settle; rewrite H;
    reflexivity.
Qed.

(** C6, as stated, fails: the oracle stores 10^18 (one unit) and
    2500 * 10^18; the readers return the strings of these integers, which
    do not denote the integers divided by 10^18. *)
Lemma price_string_not_scaled :
  oracle_getUnderlyingPrice Worlds.world_ok (JStr "0xAAA") = Return (10 ^ 18) /\
  outcome (Ts.getUnderlyingPrice Worlds.world_ok (JStr "0xAAA"))
  = Return (success_price (JStr "1000000000000000000")) /\
  denotes_scaled "1000000000000000000" (10 ^ 18) 18 = false /\
  oracle_assetPrices Worlds.world_ok (JStr "0xAAA") = Return (2500 * 10 ^ 18) /\
  outcome (Ts.getAssetPrice Worlds.world_ok (JStr "0xAAA"))
  = Return (success_price (JStr "2500000000000000000000")) /\
  denotes_scaled "2500000000000000000000" (2500 * 10 ^ 18) 18 = false.
Proof. repeat split. Qed.

(** C6, amended. For every address on which the call is made and succeeds,
    each price reader returns [{ success: true, price }] where [price] is
    the decimal string of the raw integer itself: the string reads back as
    that integer, unscaled, and denotes the integer divided by 10^18 only
    when the integer is 0. *)
Theorem price_is_raw_decimal_string (w : World) (address : JsVal) (raw : Z) :
  (In (ECallGetUnderlyingPrice address) (trace (Ts.getUnderlyingPrice w address)) ->
   oracle_getUnderlyingPrice w address = Return raw ->
   outcome (Ts.getUnderlyingPrice w address)
   = Return (success_price (JStr (Z_toString raw)))) /\
  (In (ECallAssetPrices address) (trace (Ts.getAssetPrice w address)) ->
   oracle_assetPrices w address = Return raw ->
   outcome (Ts.getAssetPrice w address)
   = Return (success_price (JStr (Z_toString raw)))) /\
  decimal_value (Z_toString raw) = Some (raw, 0%nat) /\
  (denotes_scaled (Z_toString raw) raw 18 = true <-> raw = 0).
Proof.
  split; [ | split; [ | split]].
  - intros Hmade H. destruct (ts_underlying_read_made w address Hmade) as (s & Hs).
    rewrite (ts_underlying_returned _ _ _ _ Hs H). reflexivity.
  - intros Hmade H. destruct (ts_asset_read_made w address Hmade) as (s & Hs).
    rewrite (ts_asset_returned _ _ _ _ Hs H). reflexivity.
  - apply decimal_value_toString.
  - apply toString_scaled_iff_zero.
Qed.

Lemma price_is_raw_decimal_string_witness :
  outcome (Ts.getUnderlyingPrice Worlds.world_ok (JStr "0xAAA"))
  = Return (success_price (JStr (Z_toString (10 ^ 18)))) /\
  outcome (Ts.getAssetPrice Worlds.world_ok (JStr "0xAAA"))
  = Return (success_price (JStr (Z_toString (2500 * 10 ^ 18)))).
Proof.
  split.
  - apply (price_is_raw_decimal_string Worlds.world_ok (JStr "0xAAA") (10 ^ 18));
      [left | ]; reflexivity.
  - apply (price_is_raw_decimal_string Worlds.world_ok (JStr "0xAAA")
             (2500 * 10 ^ 18)); [left | ]; reflexivity.
Defined.

(** ** What a confirmed submission returns *)

Lemma require_key_present w key message :
  PRIVATE_KEY_TEST w = Some key -> key <> "" ->
  require_key w message = Return key.
Proof.
  intros Hk Hne. unfold require_key. rewrite Hk.
  destruct (String.eqb_spec key ""); [contradiction | reflexivity].
Qed.

Lemma fetch_quote_submit_confirmed w body data pythAddress fee tx receipt :
  axios_get w hermesUrl = Return body ->
  priceUpdateData_of body = Return data ->
  pyth w = Return pythAddress ->
  getUpdateFee w pythAddress data = Return fee ->
  updatePythPrices w data fee = Return tx ->
  wait tx = Return receipt ->
  outcome (fetch_quote_submit w) = Return (success_hash (hash tx)).
Proof.
  intros Hg Hd Hp Hf Ht Hr. unfold fetch_quote_submit. settle.
  rewrite Hg; settle. rewrite Hd; settle. rewrite Hp; settle. rewrite Hf; settle.
  rewrite Ht; settle. rewrite Hr; settle. reflexivity.
Qed.

(** The cycles, from the fetch on, are one computation. *)
Lemma ts_update_unfold w :
  Ts.updateOraclePrices_try w
  = (PRIVATE_KEY <- local (require_key w
         "PRIVATE_KEY_TEST environment variable is not set. Please set it in .env file.") ;;
     address <- local (Wallet_address w PRIVATE_KEY) ;;
     balance <- request (EGetBalance address) (getBalance w address) ;;
     fetch_quote_submit w).
Proof. reflexivity. Qed.

Lemma dist_update_unfold w :
  Dist.updateOraclePrices_try w
  = (PRIVATE_KEY <- local (require_key w
         "PRIVATE_KEY_TEST environment variable is not set. Please set it in Lambda configuration.") ;;
     address <- local (Wallet_address w PRIVATE_KEY) ;;
     balance <- request (EGetBalance address) (getBalance w address) ;;
     fetch_quote_submit w).
Proof. reflexivity. Qed.

Lemma compiled_update_unfold w :
  Compiled.updateOraclePrices_try w
  = (PRIVATE_KEY <- local (require_key w
         "PRIVATE_KEY_TEST environment variable is not set. Please set it in your .env file.") ;;
     address <- local (Wallet_address w PRIVATE_KEY) ;;
     fetch_quote_submit w).
Proof. reflexivity. Qed.

Lemma ts_update_confirmed w tx receipt :
  confirmed_in w tx receipt ->
  outcome (Ts.updateOraclePrices w) = Return (success_hash (hash tx)).
Proof.
  intros (key & address & balance & body & data & pythAddress & fee
          & Hk & Hne & Hw & Hb & Hg & Hd & Hp & Hf & Ht & Hr).
  unfold Ts.updateOraclePrices. rewrite reported_outcome, ts_update_unfold. settle.
  rewrite (require_key_present w key _ Hk Hne); settle.
  rewrite Hw; settle. rewrite Hb; settle.
  rewrite (fetch_quote_submit_confirmed w _ _ _ _ _ _ Hg Hd Hp Hf Ht Hr).
  reflexivity.
Qed.

Lemma dist_update_confirmed w tx receipt :
  confirmed_in w tx receipt ->
  outcome (Dist.updateOraclePrices w) = Return (success_hash (hash tx)).
Proof.
  intros (key & address & balance & body & data & pythAddress & fee
          & Hk & Hne & Hw & Hb & Hg & Hd & Hp & Hf & Ht & Hr).
  unfold Dist.updateOraclePrices. rewrite reported_outcome, dist_update_unfold. settle.
  rewrite (require_key_present w key _ Hk Hne); settle.
  rewrite Hw; settle. rewrite Hb; settle.
  rewrite (fetch_quote_submit_confirmed w _ _ _ _ _ _ Hg Hd Hp Hf Ht Hr).
  reflexivity.
Qed.

Lemma world_ok_confirmed :
  confirmed_in Worlds.world_ok
    {| hash := "0xabc"; wait := Return {| blockNumber := 7 |} |}
    {| blockNumber := 7 |}.
Proof.
  exists "0x0123", "0xA11CE", (10 ^ 18), Worlds.hermes_body,
         ["0x504e4155"; "0x504e4156"], "0xFEED", 2.
  repeat split. discriminate.
Qed.

(** C7, as stated, fails: the submission of [world_ok] is confirmed in
    block 7 and the success result is [{ success: true, hash: "0xabc" }]:
    it has no [blockNumber], and 7 is the value of none of its properties,
    in any representation. *)
Lemma success_result_lacks_block_number :
  confirmed_in Worlds.world_ok
    {| hash := "0xabc"; wait := Return {| blockNumber := 7 |} |}
    {| blockNumber := 7 |} /\
  outcome (Ts.updateOraclePrices Worlds.world_ok)
  = Return (JObject [("success", JBool true); ("hash", JStr "0xabc")]) /\
  ~ In (JNum 7) (values_of (JObject [("success", JBool true); ("hash", JStr "0xabc")])) /\
  ~ In (JBigInt 7) (values_of (JObject [("success", JBool true); ("hash", JStr "0xabc")])) /\
  ~ In (JStr "7") (values_of (JObject [("success", JBool true); ("hash", JStr "0xabc")])).
Proof.
  split; [exact world_ok_confirmed | split; [reflexivity | ]].
  repeat split; cbn; intros [H | [H | []]]; discriminate.
Qed.

(** C7, amended. For every submission that reaches one confirmation, the
    success result is [{ success: true, hash }] with the transaction's
    identifier: these two properties and no other; the confirmation's block
    number is not in it. *)
Theorem confirmed_submission_returns_hash
    (w : World) (tx : TransactionResponse) (receipt : TransactionReceipt) :
  confirmed_in w tx receipt ->
  outcome (Ts.updateOraclePrices w)
  = Return (JObject [("success", JBool true); ("hash", JStr (hash tx))]) /\
  outcome (Dist.updateOraclePrices w)
  = Return (JObject [("success", JBool true); ("hash", JStr (hash tx))]).
Proof.
  intros H. split.
  - apply (ts_update_confirmed w tx receipt H).
  - apply (dist_update_confirmed w tx receipt H).
Qed.

Lemma confirmed_submission_returns_hash_witness :
  outcome (Ts.updateOraclePrices Worlds.world_ok)
  = Return (JObject [("success", JBool true); ("hash", JStr "0xabc")]) /\
  outcome (Dist.updateOraclePrices Worlds.world_ok)
  = Return (JObject [("success", JBool true); ("hash", JStr "0xabc")]).
Proof.
  apply (confirmed_submission_returns_hash Worlds.world_ok
           {| hash := "0xabc"; wait := Return {| blockNumber := 7 |} |}
           {| blockNumber := 7 |}).
  exists "0x0123", "0xA11CE", (10 ^ 18), Worlds.hermes_body,
         ["0x504e4155"; "0x504e4156"], "0xFEED", 2.
  repeat split. discriminate.
Defined.


(** ** The three variants against each other *)

Lemma fetch_quote_submit_returns w r :
  outcome (fetch_quote_submit w) = Return r -> exists h, r = success_hash h.
Proof.
  intros H. unfold fetch_quote_submit in H. returned H.
  injection H as <-. eauto.
Qed.

Lemma Described_same_flag_and_hash rc rt :
  Described rc rt ->
  prop "success" rc = prop "success" rt /\ prop "hash" rc = prop "hash" rt.
Proof. intros []; split; reflexivity. Qed.

Lemma key_truthy w :
  env_truthy (PRIVATE_KEY_TEST w) = true ->
  exists key, PRIVATE_KEY_TEST w = Some key /\ key <> "".
Proof.
  unfold env_truthy. destruct (PRIVATE_KEY_TEST w) as [key|]; [ | discriminate].
  destruct (String.eqb_spec key ""); [discriminate | eauto].
Qed.

Lemma key_falsy w message :
  env_truthy (PRIVATE_KEY_TEST w) = false ->
  require_key w message = Throw (JError "Error" message).
Proof.
  unfold env_truthy, require_key.
  destruct (PRIVATE_KEY_TEST w) as [key|]; [ | reflexivity].
  destruct (key =? "")%string; [reflexivity | discriminate].
Qed.

(** With the credential set, the script and the managed build run the same
    cycle. *)
Lemma ts_dist_update_same w :
  env_truthy (PRIVATE_KEY_TEST w) = true ->
  Ts.updateOraclePrices w = Dist.updateOraclePrices w.
Proof.
  intros H. destruct (key_truthy w H) as (key & Hk & Hne).
  unfold Ts.updateOraclePrices, Dist.updateOraclePrices,
    Ts.updateOraclePrices_try, Dist.updateOraclePrices_try.
  rewrite !(require_key_present w key _ Hk Hne). reflexivity.
Qed.

(** Without it all three fail at once, each with its own message. *)
Lemma ts_dist_update_no_key w :
  env_truthy (PRIVATE_KEY_TEST w) = false ->
  Ts.updateOraclePrices w
  = ([], Return (failure (JStr
       "PRIVATE_KEY_TEST environment variable is not set. Please set it in .env file.")))
  /\ Dist.updateOraclePrices w
  = ([], Return (failure (JStr
       "PRIVATE_KEY_TEST environment variable is not set. Please set it in Lambda configuration.")))
  /\ Compiled.updateOraclePrices w
  = ([], Return (failure (JError "Error"
       "PRIVATE_KEY_TEST environment variable is not set. Please set it in your .env file."))).
Proof.
  intros H.
  unfold Ts.updateOraclePrices, Dist.updateOraclePrices, Compiled.updateOraclePrices,
    Ts.updateOraclePrices_try, Dist.updateOraclePrices_try,
    Compiled.updateOraclePrices_try.
  rewrite !(key_falsy w _ H). repeat split.
Qed.

(** What the script makes of a raised value describes what the compiled
    module makes of it. *)
Lemma caught_describes (e : JsVal) :
  match caught e with
  | Return rt => Described (failure e) rt
  | Throw t => exists e', failure e = failure e' /\ formatError e' = Throw t
  end.
Proof.
  unfold caught. destruct (formatError e) as [d|t] eqn:E.
  - apply Described_failure, E.
  - eauto.
Qed.

(** A [try] block of the compiled module and one of the script that settle
    alike give outcomes of which the script's describes the other. *)
Lemma described_by_blocks (mc mt : Async JsVal) :
  match outcome mc, outcome mt with
  | Return rc, Return rt => Described rc rt
  | Throw ec, Throw et => ec = et
  | _, _ => False
  end ->
  described_by (catch mc (fun error => ret (failure error))) (catch mt report).
Proof.
  unfold described_by. rewrite kept_outcome, reported_outcome.
  destruct (outcome mc) as [rc|ec], (outcome mt) as [rt|et]; try contradiction.
  - eauto.
  - intros <-. eexists. split; [reflexivity | apply caught_describes].
Qed.

(** The compiled module's cycle against the script's, when the credential is
    set and the balance query answers. *)
Lemma compiled_ts_update_described w :
  balance_answers w -> env_truthy (PRIVATE_KEY_TEST w) = true ->
  described_by (Compiled.updateOraclePrices w) (Ts.updateOraclePrices w).
Proof.
  intros Hbal H. destruct (key_truthy w H) as (key & Hk & Hne).
  apply described_by_blocks. rewrite compiled_update_unfold, ts_update_unfold.
  settle. rewrite !(require_key_present w key _ Hk Hne). settle.
  destruct (Wallet_address w key) as [address|e] eqn:Hw; settle; [ | reflexivity].
  destruct (Hbal key address Hk Hw) as (balance & Hb). rewrite Hb. settle.
  destruct (outcome (fetch_quote_submit w)) as [r|e] eqn:E; [ | reflexivity].
  destruct (fetch_quote_submit_returns w r E) as (h & ->). constructor.
Qed.

Lemma compiled_ts_underlying_described w address :
  described_by (Compiled.getUnderlyingPrice w address)
               (Ts.getUnderlyingPrice w address).
Proof.
  apply described_by_blocks.
  unfold Compiled.getUnderlyingPrice_try, Ts.getUnderlyingPrice_try. settle.
  destruct (String_ address); settle; [ | reflexivity].
  destruct (oracle_getUnderlyingPrice w address); [constructor | reflexivity].
Qed.

Lemma compiled_ts_asset_described w address :
  described_by (Compiled.getAssetPrice w address) (Ts.getAssetPrice w address).
Proof.
  apply described_by_blocks.
  unfold Compiled.getAssetPrice_try, Ts.getAssetPrice_try. settle.
  destruct (String_ address); settle; [ | reflexivity].
  destruct (oracle_assetPrices w address); [constructor | reflexivity].
Qed.

(** When the script returns, both return and the script's result describes
    the other. *)
Lemma described_by_returned (compiled script : Async JsVal) :
  described_by compiled script ->
  (exists rt, outcome script = Return rt) ->
  exists rc rt,
    outcome compiled = Return rc /\ outcome script = Return rt /\ Described rc rt.
Proof.
  intros (rc & Hc & H) (rt & Ht). rewrite Ht in H. eauto.
Qed.

Lemma ts_dist_update_same_flag_and_hash w :
  field "success" (Ts.updateOraclePrices w)
  = field "success" (Dist.updateOraclePrices w) /\
  field "hash" (Ts.updateOraclePrices w)
  = field "hash" (Dist.updateOraclePrices w).
Proof.
  destruct (env_truthy (PRIVATE_KEY_TEST w)) eqn:H.
  - rewrite (ts_dist_update_same w H). split; reflexivity.
  - destruct (ts_dist_update_no_key w H) as (-> & -> & _). split; reflexivity.
Qed.

Lemma compiled_ts_update_same_flag_and_hash w :
  balance_answers w ->
  (exists rt, outcome (Ts.updateOraclePrices w) = Return rt) ->
  field "success" (Compiled.updateOraclePrices w)
  = field "success" (Ts.updateOraclePrices w) /\
  field "hash" (Compiled.updateOraclePrices w)
  = field "hash" (Ts.updateOraclePrices w).
Proof.
  intros Hbal Hret. destruct (env_truthy (PRIVATE_KEY_TEST w)) eqn:H.
  - destruct (described_by_returned _ _ (compiled_ts_update_described w Hbal H) Hret)
      as (rc & rt & Hc & Ht & D).
    unfold field. rewrite Hc, Ht. apply Described_same_flag_and_hash, D.
  - destruct (ts_dist_update_no_key w H) as (-> & _ & ->). split; reflexivity.
Qed.

(** C8, as stated, fails.  Without the signing credential the three
    variants fail with three different errors; when the balance query
    fails the script (and the managed build) fail while the compiled
    module, which does not make that query, succeeds; and the compiled
    module's readers return the integer, the others its string. *)
Lemma variants_differ :
  let no_key := Worlds.with_key None Worlds.world_ok in
  let no_balance :=
    Worlds.with_getBalance (fun _ => Throw (JError "Error" "timeout")) Worlds.world_ok in
  field "error" (Ts.updateOraclePrices no_key)
  = JStr "PRIVATE_KEY_TEST environment variable is not set. Please set it in .env file."
  /\ field "error" (Dist.updateOraclePrices no_key)
  = JStr "PRIVATE_KEY_TEST environment variable is not set. Please set it in Lambda configuration."
  /\ field "error" (Compiled.updateOraclePrices no_key)
  = JError "Error"
      "PRIVATE_KEY_TEST environment variable is not set. Please set it in your .env file."
  /\ field "error" (Ts.updateOraclePrices no_key)
     <> field "error" (Dist.updateOraclePrices no_key)
  /\ field "success" (Ts.updateOraclePrices no_balance) = JBool false
  /\ field "success" (Dist.updateOraclePrices no_balance) = JBool false
  /\ field "success" (Compiled.updateOraclePrices no_balance) = JBool true
  /\ field "price" (Ts.getUnderlyingPrice Worlds.world_ok (JStr "0xAAA"))
     = JStr "1000000000000000000"
  /\ field "price" (Compiled.getUnderlyingPrice Worlds.world_ok (JStr "0xAAA"))
     = JBigInt (10 ^ 18).
Proof. cbn zeta. repeat split. discriminate. Qed.

(** C8, amended.  The script and the managed build return the same result
    from the two price readers always and from [updateOraclePrices]
    whenever the signing credential is set; without it both fail (same
    flag, no hash), each with its own message.  The earlier compiled module
    returns from the readers, and from [updateOraclePrices] when the
    credential is set and the balance query (which it does not make)
    answers, the result the script's describes: the same flag and hash, as
    [error] the caught value of which the script returns the [formatError],
    as [price] the integer of which the script returns the decimal string;
    where [formatError] throws on the caught value, the script throws that
    instead of returning.  Whenever the balance query answers and the script
    returns, the compiled module's flag and hash are the script's. *)
Theorem variants_agree (w : World) (address : JsVal) :
  Ts.getUnderlyingPrice w address = Dist.getUnderlyingPrice w address /\
  Ts.getAssetPrice w address = Dist.getAssetPrice w address /\
  (env_truthy (PRIVATE_KEY_TEST w) = true ->
   Ts.updateOraclePrices w = Dist.updateOraclePrices w) /\
  (field "success" (Ts.updateOraclePrices w)
   = field "success" (Dist.updateOraclePrices w) /\
   field "hash" (Ts.updateOraclePrices w)
   = field "hash" (Dist.updateOraclePrices w)) /\
  described_by (Compiled.getUnderlyingPrice w address)
               (Ts.getUnderlyingPrice w address) /\
  described_by (Compiled.getAssetPrice w address) (Ts.getAssetPrice w address) /\
  (balance_answers w ->
   (exists rt, outcome (Ts.updateOraclePrices w) = Return rt) ->
   field "success" (Compiled.updateOraclePrices w)
   = field "success" (Ts.updateOraclePrices w) /\
   field "hash" (Compiled.updateOraclePrices w)
   = field "hash" (Ts.updateOraclePrices w)) /\
  (balance_answers w -> env_truthy (PRIVATE_KEY_TEST w) = true ->
   described_by (Compiled.updateOraclePrices w) (Ts.updateOraclePrices w)) /\
  (describable_world w ->
   (exists rc rt,
      outcome (Compiled.getUnderlyingPrice w address) = Return rc /\
      outcome (Ts.getUnderlyingPrice w address) = Return rt /\
      Described rc rt) /\
   (exists rc rt,
      outcome (Compiled.getAssetPrice w address) = Return rc /\
      outcome (Ts.getAssetPrice w address) = Return rt /\
      Described rc rt) /\
   (balance_answers w ->
    field "success" (Compiled.updateOraclePrices w)
    = field "success" (Ts.updateOraclePrices w) /\
    field "hash" (Compiled.updateOraclePrices w)
    = field "hash" (Ts.updateOraclePrices w)) /\
   (balance_answers w -> env_truthy (PRIVATE_KEY_TEST w) = true ->
    exists rc rt,
      outcome (Compiled.updateOraclePrices w) = Return rc /\
      outcome (Ts.updateOraclePrices w) = Return rt /\
      Described rc rt)).
Proof.
  split; [reflexivity | split; [reflexivity | ]].
  split; [apply ts_dist_update_same | ].
  split; [apply ts_dist_update_same_flag_and_hash | ].
  split; [apply compiled_ts_underlying_described | ].
  split; [apply compiled_ts_asset_described | ].
  split; [apply compiled_ts_update_same_flag_and_hash | ].
  split; [apply compiled_ts_update_described | ].
  intros Hw.
  assert (Hu : exists rt, outcome (Ts.updateOraclePrices w) = Return rt).
  { destruct (ts_update_tagged w Hw) as (r & Hr & _). eauto. }
  split; [ | split; [ | split]].
  - apply described_by_returned; [apply compiled_ts_underlying_described | ].
    destruct (ts_underlying_tagged w address Hw) as (r & Hr & _). eauto.
  - apply described_by_returned; [apply compiled_ts_asset_described | ].
    destruct (ts_asset_tagged w address Hw) as (r & Hr & _). eauto.
  - intros Hbal. apply (compiled_ts_update_same_flag_and_hash w Hbal Hu).
  - intros Hbal Hk.
    apply (described_by_returned _ _ (compiled_ts_update_described w Hbal Hk) Hu).
Qed.

Lemma world_ok_describable : describable_world Worlds.world_ok.
Proof.
  unfold describable_world.
  repeat apply conj; intros *; try (intros H; discriminate H).
  intros [= <-] H. discriminate H.
Qed.

Lemma variants_agree_witness :
  Ts.updateOraclePrices Worlds.world_ok = Dist.updateOraclePrices Worlds.world_ok /\
  field "hash" (Compiled.updateOraclePrices Worlds.world_ok)
  = field "hash" (Ts.updateOraclePrices Worlds.world_ok) /\
  exists rc rt,
    outcome (Compiled.updateOraclePrices Worlds.world_ok) = Return rc /\
    outcome (Ts.updateOraclePrices Worlds.world_ok) = Return rt /\
    Described rc rt.
Proof.
  destruct (variants_agree Worlds.world_ok (JStr "0xAAA"))
    as (_ & _ & Hsame & _ & _ & _ & _ & _ & Hall).
  destruct (Hall world_ok_describable) as (_ & _ & Hflag & Hdescribed).
  assert (Hbal : balance_answers Worlds.world_ok)
    by (intros key address _ _; exists (10 ^ 18); reflexivity).
  split; [apply Hsame; reflexivity | ].
  split; [apply (Hflag Hbal) | apply (Hdescribed Hbal); reflexivity].
Defined.

(** * Further properties of the workflow *)

(** Take the next awaited answer: from a hypothesis when there is one, by
    cases otherwise. *)
Ltac answer :=
  match goal with
  | H : ?c = _ |- context [match ?c with Return _ => _ | Throw _ => _ end] =>
      rewrite H
  | |- context [match ?c with Return _ => _ | Throw _ => _ end] =>
      destruct c eqn:?
  end; settle.

Lemma require_key_inv w message key :
  require_key w message = Return key ->
  PRIVATE_KEY_TEST w = Some key /\ key <> "".
Proof.
  unfold require_key. destruct (PRIVATE_KEY_TEST w) as [k|]; [ | discriminate].
  destruct (String.eqb_spec k ""); cbn; [discriminate | ].
  intros [= <-]. auto.
Qed.

(** The operations as pairs: the requests of the [try] block, and what the
    [catch] makes of what the block raised. *)
Lemma reported_raised (m : Async JsVal) (t : list Effect) (e : JsVal) :
  trace m = t -> outcome m = Throw e -> catch m report = (t, caught e).
Proof.
  intros Ht He. apply async_eq; [rewrite reported_trace; exact Ht | ].
  rewrite reported_outcome, He. reflexivity.
Qed.

Lemma kept_raised (m : Async JsVal) (t : list Effect) (e : JsVal) :
  trace m = t -> outcome m = Throw e ->
  catch m (fun error => ret (failure error)) = (t, Return (failure e)).
Proof.
  intros Ht He. apply async_eq; [rewrite kept_trace; exact Ht | ].
  rewrite kept_outcome, He. reflexivity.
Qed.

Lemma caught_Error (name message : string) :
  caught (JError name message) = Return (failure (JStr message)).
Proof. reflexivity. Qed.

(** ** The update cycle *)

(** X1. Without the signing credential (unset, or empty) no variant sends
    any request: each fails at once. *)
Theorem no_credential_no_request (w : World) :
  env_truthy (PRIVATE_KEY_TEST w) = false ->
  trace (Ts.updateOraclePrices w) = [] /\
  trace (Dist.updateOraclePrices w) = [] /\
  trace (Compiled.updateOraclePrices w) = [] /\
  field "success" (Ts.updateOraclePrices w) = JBool false /\
  field "success" (Dist.updateOraclePrices w) = JBool false /\
  field "success" (Compiled.updateOraclePrices w) = JBool false.
Proof.
  intros H. destruct (ts_dist_update_no_key w H) as (-> & -> & ->).
  repeat split.
Qed.

Lemma no_credential_no_request_witness :
  trace (Ts.updateOraclePrices (Worlds.with_key (Some "") Worlds.world_ok)) = [] /\
  field "success" (Compiled.updateOraclePrices
                     (Worlds.with_key (Some "") Worlds.world_ok)) = JBool false.
Proof.
  destruct (no_credential_no_request (Worlds.with_key (Some "") Worlds.world_ok))
    as (Ht & _ & _ & _ & _ & Hc); [reflexivity | ].
  split; [exact Ht | exact Hc].
Defined.

Lemma ts_update_try_success w h :
  outcome (Ts.updateOraclePrices_try w) = Return (success_hash h) ->
  exists tx receipt, confirmed_in w tx receipt /\ hash tx = h.
Proof.
  rewrite ts_update_unfold. unfold fetch_quote_submit. settle.
  destruct (require_key w _) as [key|] eqn:Hkey; settle; [ | discriminate].
  apply require_key_inv in Hkey. destruct Hkey as [Hk Hne].
  destruct (Wallet_address w key) as [address|] eqn:Hw; settle; [ | discriminate].
  destruct (getBalance w address) as [balance|] eqn:Hb; settle; [ | discriminate].
  destruct (axios_get w hermesUrl) as [body|] eqn:Hg; settle; [ | discriminate].
  destruct (priceUpdateData_of body) as [data|] eqn:Hd; settle; [ | discriminate].
  destruct (pyth w) as [pythAddress|] eqn:Hp; settle; [ | discriminate].
  destruct (getUpdateFee w pythAddress data) as [fee|] eqn:Hf; settle;
    [ | discriminate].
  destruct (updatePythPrices w data fee) as [tx|] eqn:Ht; settle; [ | discriminate].
  destruct (wait tx) as [receipt|] eqn:Hr; settle; [ | discriminate].
  intros [= <-]. exists tx, receipt. split; [ | reflexivity].
  exists key, address, balance, body, data, pythAddress, fee. auto 12.
Qed.

(** X2. The script reports success only for a transaction that was sent and
    confirmed: a result [{ success: true, hash }] means every step of the
    cycle answered and [hash] is the hash of the confirmed transaction. *)
Theorem success_means_confirmed (w : World) (h : string) :
  outcome (Ts.updateOraclePrices w) = Return (success_hash h) ->
  exists tx receipt, confirmed_in w tx receipt /\ hash tx = h.
Proof.
  unfold Ts.updateOraclePrices. rewrite reported_outcome.
  destruct (outcome (Ts.updateOraclePrices_try w)) as [r|e] eqn:E.
  - intros [= ->]. apply ts_update_try_success, E.
  - intros H. destruct (caught_returns e _ H) as (d & _ & [=]).
Qed.

Lemma success_means_confirmed_witness :
  exists tx receipt, confirmed_in Worlds.world_ok tx receipt /\ hash tx = "0xabc".
Proof.
  apply (success_means_confirmed Worlds.world_ok "0xabc"). reflexivity.
Defined.

(** The transactions of one cycle, by cases. *)
Lemma cycle_sends (w : World) (message : string) :
  let cycle :=
    PRIVATE_KEY <- local (require_key w message) ;;
    address <- local (Wallet_address w PRIVATE_KEY) ;;
    balance <- request (EGetBalance address) (getBalance w address) ;;
    fetch_quote_submit w in
  sends (trace cycle) = [] \/
  exists body pythAddress data fee,
    axios_get w hermesUrl = Return body /\
    priceUpdateData_of body = Return data /\
    pyth w = Return pythAddress /\
    getUpdateFee w pythAddress data = Return fee /\
    sends (trace cycle) = [(data, fee)].
Proof.
  cbn zeta. unfold fetch_quote_submit. settle.
  destruct (require_key w _) as [key|]; settle; [ | left; reflexivity].
  destruct (Wallet_address w key) as [address|]; settle; [ | left; reflexivity].
  destruct (getBalance w address) as [balance|]; settle; [ | left; reflexivity].
  destruct (axios_get w hermesUrl) as [body|] eqn:Hg; settle; [ | left; reflexivity].
  destruct (priceUpdateData_of body) as [data|] eqn:Hd; settle; [ | left; reflexivity].
  destruct (pyth w) as [pythAddress|] eqn:Hp; settle; [ | left; reflexivity].
  destruct (getUpdateFee w pythAddress data) as [fee|] eqn:Hf; settle;
    [ | left; reflexivity].
  right. exists body, pythAddress, data, fee.
  repeat (split; [reflexivity || assumption | ]).
  destruct (updatePythPrices w data fee) as [tx|]; settle; [ | reflexivity].
  destruct (wait tx); reflexivity.
Qed.

Lemma ts_update_sends (w : World) :
  sends (trace (Ts.updateOraclePrices w)) = [] \/
  exists body pythAddress data fee,
    axios_get w hermesUrl = Return body /\
    priceUpdateData_of body = Return data /\
    pyth w = Return pythAddress /\
    getUpdateFee w pythAddress data = Return fee /\
    sends (trace (Ts.updateOraclePrices w)) = [(data, fee)].
Proof.
  unfold Ts.updateOraclePrices. rewrite reported_trace, ts_update_unfold.
  apply cycle_sends.
Qed.

Lemma dist_update_sends (w : World) :
  sends (trace (Dist.updateOraclePrices w)) = [] \/
  exists body pythAddress data fee,
    axios_get w hermesUrl = Return body /\
    priceUpdateData_of body = Return data /\
    pyth w = Return pythAddress /\
    getUpdateFee w pythAddress data = Return fee /\
    sends (trace (Dist.updateOraclePrices w)) = [(data, fee)].
Proof.
  unfold Dist.updateOraclePrices. rewrite reported_trace, dist_update_unfold.
  apply cycle_sends.
Qed.

(** X3. One cycle sends at most one transaction (nothing is retried inside
    it), and a transaction it sends carries exactly the blobs normalized from
    the body fetched in this cycle and, as payment, exactly the fee the
    verifier quoted for these blobs. *)
Theorem sent_update_is_quoted (w : World) :
  (List.length (sends (trace (Ts.updateOraclePrices w))) <= 1)%nat /\
  (List.length (sends (trace (Dist.updateOraclePrices w))) <= 1)%nat /\
  forall data value,
    In (data, value) (sends (trace (Ts.updateOraclePrices w))) \/
    In (data, value) (sends (trace (Dist.updateOraclePrices w))) ->
    exists body pythAddress,
      axios_get w hermesUrl = Return body /\
      priceUpdateData_of body = Return data /\
      pyth w = Return pythAddress /\
      getUpdateFee w pythAddress data = Return value.
Proof.
  destruct (ts_update_sends w) as [Ht | (bt & pt & dt & ft & Hg & Hd & Hp & Hf & Ht)];
  destruct (dist_update_sends w)
    as [Hs | (bs & ps & ds & fs & Hg' & Hd' & Hp' & Hf' & Hs)];
  rewrite Ht, Hs; cbn [List.length In];
  (split; [lia | split; [lia | ]]);
  intros data value [H | H]; try contradiction;
  destruct H as [[= <- <-] | []]; eauto 6.
Qed.

Lemma sent_update_is_quoted_witness :
  exists body pythAddress,
    axios_get Worlds.world_ok hermesUrl = Return body /\
    priceUpdateData_of body = Return ["0x504e4155"; "0x504e4156"] /\
    pyth Worlds.world_ok = Return pythAddress /\
    getUpdateFee Worlds.world_ok pythAddress ["0x504e4155"; "0x504e4156"] = Return 2.
Proof.
  apply (sent_update_is_quoted Worlds.world_ok). left. cbn. left. reflexivity.
Defined.

(** X4. When the body the attestation service returned cannot be read as
    update data (no [binary], [binary.data] not an array, an element that is
    not a string), the step throws a [TypeError] and the cycle stops right
    after the fetch: the verifier is not asked, nothing is sent, and the
    result is the failure with the message of that [TypeError]. *)
Theorem malformed_body_stops_cycle
    (w : World) (address : string) (body e : JsVal) :
  fetched_in w address body ->
  priceUpdateData_of body = Throw e ->
  exists message,
    e = JError "TypeError" message /\
    formatError e = Return message /\
    Ts.updateOraclePrices w
    = ([EGetBalance address; EHttpGet hermesUrl],
       Return (failure (JStr message))) /\
    Dist.updateOraclePrices w
    = ([EGetBalance address; EHttpGet hermesUrl],
       Return (failure (JStr message))).
Proof.
  intros (key & balance & Hk & Hne & Hw & Hb & Hg) Hd.
  destruct (priceUpdateData_throws body e Hd) as (message & ->).
  exists message. split; [reflexivity | split; [reflexivity | ]].
  rewrite <- caught_Error with (name := "TypeError").
  unfold Ts.updateOraclePrices, Dist.updateOraclePrices.
  rewrite ts_update_unfold, dist_update_unfold. unfold fetch_quote_submit.
  split; apply reported_raised; settle;
    rewrite (require_key_present w key _ Hk Hne); settle;
    rewrite Hw; settle; rewrite Hb; settle; rewrite Hg; settle;
    rewrite Hd; settle; reflexivity.
Qed.

Lemma malformed_body_stops_cycle_witness :
  exists message,
    JError "TypeError" "Cannot read properties of undefined (reading 'data')"
    = JError "TypeError" message /\
    formatError
      (JError "TypeError" "Cannot read properties of undefined (reading 'data')")
    = Return message /\
    Ts.updateOraclePrices MoreWorlds.world_malformed
    = ([EGetBalance "0xA11CE"; EHttpGet hermesUrl],
       Return (failure (JStr message))) /\
    Dist.updateOraclePrices MoreWorlds.world_malformed
    = ([EGetBalance "0xA11CE"; EHttpGet hermesUrl],
       Return (failure (JStr message))).
Proof.
  apply (malformed_body_stops_cycle MoreWorlds.world_malformed "0xA11CE"
           (JObject [("error", JStr "rate limited")])
           (JError "TypeError" "Cannot read properties of undefined (reading 'data')")).
  - exists "0x0123", (10 ^ 18). repeat split. discriminate.
  - reflexivity.
Defined.

(** X5. A failure result does not mean that nothing was sent: when the
    transaction was sent and [tx.wait()] throws (a revert, a timeout), the
    cycle made all six requests, the transaction among them, and settles to
    what the [catch] makes of the thrown value: the failure with its
    description, [formatError] of it. *)
Theorem failure_after_send
    (w : World) (address pythAddress : string) (data : list string) (fee : Z)
    (tx : TransactionResponse) (e : JsVal) :
  sent_in w address pythAddress data fee tx ->
  wait tx = Throw e ->
  Ts.updateOraclePrices w
  = ([EGetBalance address; EHttpGet hermesUrl; ECallPyth;
      EGetUpdateFee pythAddress data; ESendUpdate data fee; EWait (hash tx)],
     caught e) /\
  forall description,
    formatError e = Return description ->
    Ts.updateOraclePrices w
    = ([EGetBalance address; EHttpGet hermesUrl; ECallPyth;
        EGetUpdateFee pythAddress data; ESendUpdate data fee; EWait (hash tx)],
       Return (failure (JStr description))).
Proof.
  intros (key & balance & body & Hk & Hne & Hw & Hb & Hg & Hd & Hp & Hf & Ht) Hr.
  assert (H : Ts.updateOraclePrices w
              = ([EGetBalance address; EHttpGet hermesUrl; ECallPyth;
                  EGetUpdateFee pythAddress data; ESendUpdate data fee;
                  EWait (hash tx)], caught e)).
  { unfold Ts.updateOraclePrices. rewrite ts_update_unfold.
    unfold fetch_quote_submit.
    apply reported_raised; settle;
      rewrite (require_key_present w key _ Hk Hne); settle;
      rewrite Hw; settle; rewrite Hb; settle; rewrite Hg; settle;
      rewrite Hd; settle; rewrite Hp; settle; rewrite Hf; settle;
      rewrite Ht; settle; rewrite Hr; settle; reflexivity. }
  split; [exact H | ].
  intros description Hdesc. rewrite H, (caught_describable e description Hdesc).
  reflexivity.
Qed.

Lemma failure_after_send_witness :
  Ts.updateOraclePrices MoreWorlds.world_reverted
  = ([EGetBalance "0xA11CE"; EHttpGet hermesUrl; ECallPyth;
      EGetUpdateFee "0xFEED" ["0x504e4155"; "0x504e4156"];
      ESendUpdate ["0x504e4155"; "0x504e4156"] 2; EWait "0xdead"],
     Return (failure (JStr "transaction execution reverted"))).
Proof.
  apply (failure_after_send MoreWorlds.world_reverted "0xA11CE" "0xFEED"
           ["0x504e4155"; "0x504e4156"] 2
           {| hash := "0xdead";
              wait := Throw (JError "Error" "transaction execution reverted") |}
           (JError "Error" "transaction execution reverted")).
  - exists "0x0123", (10 ^ 18), Worlds.hermes_body. repeat split. discriminate.
  - reflexivity.
  - reflexivity.
Defined.

(** ** The price readers *)

(** A reader given an address it can print makes the contract read and
    nothing else. *)
Lemma ts_underlying_printable w address s :
  String_ address = Return s ->
  trace (Ts.getUnderlyingPrice w address) = [ECallGetUnderlyingPrice address] /\
  trace (Compiled.getUnderlyingPrice w address) = [ECallGetUnderlyingPrice address] /\
  forall e, oracle_getUnderlyingPrice w address = Throw e ->
            outcome (Ts.getUnderlyingPrice w address) = caught e.
Proof.
  intros Hs. unfold Ts.getUnderlyingPrice, Compiled.getUnderlyingPrice.
  rewrite reported_trace, kept_trace, reported_outcome.
  unfold Ts.getUnderlyingPrice_try, Compiled.getUnderlyingPrice_try. settle.
  rewrite Hs. settle.
  repeat split; try (destruct (oracle_getUnderlyingPrice w address); reflexivity).
  intros e ->. reflexivity.
Qed.

Lemma ts_asset_printable w address s :
  String_ address = Return s ->
  trace (Ts.getAssetPrice w address) = [ECallAssetPrices address] /\
  trace (Compiled.getAssetPrice w address) = [ECallAssetPrices address] /\
  forall e, oracle_assetPrices w address = Throw e ->
            outcome (Ts.getAssetPrice w address) = caught e.
Proof.
  intros Hs. unfold Ts.getAssetPrice, Compiled.getAssetPrice.
  rewrite reported_trace, kept_trace, reported_outcome.
  unfold Ts.getAssetPrice_try, Compiled.getAssetPrice_try. settle.
  rewrite Hs. settle.
  repeat split; try (destruct (oracle_assetPrices w address); reflexivity).
  intros e ->. reflexivity.
Qed.

(** A reader given an address it cannot print fails before any read. *)
Lemma readers_unprintable w address t :
  String_ address = Throw t ->
  Ts.getUnderlyingPrice w address
  = ([], Return (failure (JStr "Cannot convert object to primitive value"))) /\
  Ts.getAssetPrice w address
  = ([], Return (failure (JStr "Cannot convert object to primitive value"))) /\
  Compiled.getUnderlyingPrice w address = ([], Return (failure cannot_convert)) /\
  Compiled.getAssetPrice w address = ([], Return (failure cannot_convert)).
Proof.
  intros Hs. pose proof (String_throws address t Hs) as ->.
  rewrite <- (caught_Error "TypeError").
  unfold Ts.getUnderlyingPrice, Ts.getAssetPrice, Compiled.getUnderlyingPrice,
    Compiled.getAssetPrice.
  repeat split; (apply reported_raised || apply kept_raised);
    unfold Ts.getUnderlyingPrice_try, Ts.getAssetPrice_try,
      Compiled.getUnderlyingPrice_try, Compiled.getAssetPrice_try;
    settle; rewrite Hs; reflexivity.
Qed.

(** X6. A price reader first prints the address it was given.  When the
    address can be printed, the reader makes exactly one request, the
    contract read for that address, whether the read answers or throws; it
    never asks for a balance, never fetches, never sends a transaction; and
    when the read throws, the script and the managed build settle to what
    the [catch] makes of the thrown value.  When the address cannot be
    printed, no request is made at all and the reader returns a failure:
    the script with the message of the [TypeError], the compiled module with
    the [TypeError] itself. *)
Theorem reader_reads_once (w : World) (address : JsVal) :
  (forall s, String_ address = Return s ->
     trace (Ts.getUnderlyingPrice w address) = [ECallGetUnderlyingPrice address] /\
     trace (Ts.getAssetPrice w address) = [ECallAssetPrices address] /\
     trace (Dist.getUnderlyingPrice w address) = [ECallGetUnderlyingPrice address] /\
     trace (Dist.getAssetPrice w address) = [ECallAssetPrices address] /\
     trace (Compiled.getUnderlyingPrice w address)
     = [ECallGetUnderlyingPrice address] /\
     trace (Compiled.getAssetPrice w address) = [ECallAssetPrices address] /\
     (forall e, oracle_getUnderlyingPrice w address = Throw e ->
        outcome (Ts.getUnderlyingPrice w address) = caught e) /\
     (forall e, oracle_assetPrices w address = Throw e ->
        outcome (Ts.getAssetPrice w address) = caught e)) /\
  (forall t, String_ address = Throw t ->
     Ts.getUnderlyingPrice w address
     = ([], Return (failure (JStr "Cannot convert object to primitive value"))) /\
     Ts.getAssetPrice w address
     = ([], Return (failure (JStr "Cannot convert object to primitive value"))) /\
     Dist.getUnderlyingPrice w address
     = ([], Return (failure (JStr "Cannot convert object to primitive value"))) /\
     Dist.getAssetPrice w address
     = ([], Return (failure (JStr "Cannot convert object to primitive value"))) /\
     Compiled.getUnderlyingPrice w address = ([], Return (failure cannot_convert)) /\
     Compiled.getAssetPrice w address = ([], Return (failure cannot_convert))).
Proof.
  split.
  - intros s Hs.
    destruct (ts_underlying_printable w address s Hs) as (Hu & Hcu & Hue).
    destruct (ts_asset_printable w address s Hs) as (Ha & Hca & Hae).
    change (Dist.getUnderlyingPrice w address) with (Ts.getUnderlyingPrice w address).
    change (Dist.getAssetPrice w address) with (Ts.getAssetPrice w address).
    repeat (split; [assumption | ]); assumption.
  - intros t Ht.
    destruct (readers_unprintable w address t Ht) as (Hu & Ha & Hcu & Hca).
    change (Dist.getUnderlyingPrice w address) with (Ts.getUnderlyingPrice w address).
    change (Dist.getAssetPrice w address) with (Ts.getAssetPrice w address).
    repeat (split; [assumption | ]); assumption.
Qed.

Lemma reader_reads_once_witness :
  let w := MoreWorlds.with_readers
             (fun _ => Throw (JError "Error" "call revert exception"))
             Worlds.world_ok in
  outcome (Ts.getUnderlyingPrice w (JStr "0xAAA"))
  = Return (failure (JStr "call revert exception")) /\
  outcome (Ts.getAssetPrice w (JStr "0xAAA"))
  = Return (failure (JStr "call revert exception")) /\
  Ts.getUnderlyingPrice w MoreWorlds.unprintable
  = ([], Return (failure (JStr "Cannot convert object to primitive value"))).
Proof.
  cbn zeta.
  destruct (reader_reads_once
              (MoreWorlds.with_readers
                 (fun _ => Throw (JError "Error" "call revert exception"))
                 Worlds.world_ok) (JStr "0xAAA"))
    as (Hprintable & _).
  destruct (Hprintable "0xAAA" eq_refl) as (_ & _ & _ & _ & _ & _ & Hu & Ha).
  destruct (reader_reads_once
              (MoreWorlds.with_readers
                 (fun _ => Throw (JError "Error" "call revert exception"))
                 Worlds.world_ok) MoreWorlds.unprintable)
    as (_ & Hunprintable).
  destruct (Hunprintable cannot_convert eq_refl) as (Hn & _).
  split; [ | split; [ | exact Hn]].
  - apply (Hu (JError "Error" "call revert exception")); reflexivity.
  - apply (Ha (JError "Error" "call revert exception")); reflexivity.
Defined.

(** ** The normalization, read backwards *)

Lemma addPrefix_inv (hexString : JsVal) (blob : string) :
  addPrefix hexString = Return blob ->
  exists s, hexString = JStr s /\
            blob = (if negb (prefix "0x" s) then "0x" ++ s else s).
Proof.
  destruct hexString; cbn; try discriminate.
  intros [= <-]. eauto.
Qed.

Lemma mapM_addPrefix_inv (items : list JsVal) (blobs : list string) :
  mapM addPrefix items = Return blobs ->
  exists rawData, items = map JStr rawData /\ blobs = normalize rawData.
Proof.
  revert blobs. induction items as [|x rest IH]; intros blobs.
  - intros [= <-]. exists []. split; reflexivity.
  - cbn [mapM]. destruct (addPrefix x) as [blob|] eqn:Hx; cbn; [ | discriminate].
    destruct (mapM addPrefix rest) as [more|] eqn:Hrest; cbn; [ | discriminate].
    intros [= <-].
    destruct (addPrefix_inv x blob Hx) as (s & -> & ->).
    destruct (IH more eq_refl) as (rawData & -> & ->).
    exists (s :: rawData). split; reflexivity.
Qed.

Lemma update_data_inv (body : JsVal) (blobs : list string) :
  priceUpdateData_of body = Return blobs ->
  exists binary rawData,
    getProp body "binary" = Return binary /\
    getProp binary "data" = Return (JArray (map JStr rawData)) /\
    blobs = normalize rawData.
Proof.
  unfold priceUpdateData_of.
  destruct (getProp body "binary") as [binary|] eqn:Hb; cbn; [ | discriminate].
  destruct (getProp binary "data") as [rawData|] eqn:Hd; cbn; [ | discriminate].
  destruct rawData; cbn; try discriminate.
  intros H. destruct (mapM_addPrefix_inv _ _ H) as (raw & -> & ->).
  exists binary, raw. auto.
Qed.

(** X7. The update data exist exactly when the body has an array of strings
    at [binary.data], and are then the normalization of that array: any
    other body (a missing field, another type, one element that is not a
    string) makes the step throw instead of passing partial data on. *)
Theorem update_data_iff_array_of_strings (body : JsVal) (blobs : list string) :
  priceUpdateData_of body = Return blobs <->
  exists binary rawData,
    getProp body "binary" = Return binary /\
    getProp binary "data" = Return (JArray (map JStr rawData)) /\
    blobs = normalize rawData.
Proof.
  split.
  - apply update_data_inv.
  - intros (binary & rawData & Hb & Hd & ->).
    unfold priceUpdateData_of. rewrite Hb. cbn. rewrite Hd. cbn.
    apply mapM_addPrefix.
Qed.

Lemma update_data_iff_array_of_strings_witness :
  exists binary rawData,
    getProp Worlds.hermes_body "binary" = Return binary /\
    getProp binary "data" = Return (JArray (map JStr rawData)) /\
    ["0x504e4155"; "0x504e4156"] = normalize rawData.
Proof.
  apply (update_data_iff_array_of_strings Worlds.hermes_body
           ["0x504e4155"; "0x504e4156"]).
  reflexivity.
Defined.

(** X8. The normalization is idempotent: update data that came out of it,
    sent through the same [map] again, come out as they are; no blob gets a
    second [0x]. *)
Theorem normalize_idempotent (body : JsVal) (blobs : list string) :
  priceUpdateData_of body = Return blobs ->
  array_map "rawData" addPrefix (JArray (map JStr blobs)) = Return blobs.
Proof.
  intros H. apply update_data_inv in H.
  destruct H as (_ & rawData & _ & _ & ->).
  cbn [array_map]. rewrite mapM_addPrefix. f_equal.
  unfold normalize. rewrite map_map. apply map_ext. intros s.
  destruct (prefix "0x" s) eqn:E; cbn [negb].
  - rewrite E. reflexivity.
  - rewrite prefix_0x_prepended. reflexivity.
Qed.

Lemma normalize_idempotent_witness :
  array_map "rawData" addPrefix
    (JArray (map JStr ["0x504e4155"; "0x504e4156"]))
  = Return ["0x504e4155"; "0x504e4156"].
Proof.
  apply (normalize_idempotent Worlds.hermes_body). reflexivity.
Defined.

(** ** The scheduler, further *)

Lemma sends_app (t u : list Effect) : sends (t ++ u) = (sends t ++ sends u)%list.
Proof.
  induction t as [|e t IH]; [reflexivity | ].
  destruct e; cbn; rewrite ?IH; reflexivity.
Qed.

Lemma ts_update_sends_at_most_one (w : World) :
  (List.length (sends (trace (Ts.updateOraclePrices w))) <= 1)%nat.
Proof.
  destruct (ts_update_sends w) as [-> | (? & ? & ? & ? & _ & _ & _ & _ & ->)];
    cbn; lia.
Qed.

(** X9. [runUpdate] arms exactly one timer.  Its delay is never below
    500 ms, and at most 45000 ms as long as the clock did not go backwards
    during the cycle.  After a cycle whose await completed, having taken at
    most 44500 ms, the next one starts exactly 45000 ms after this one
    started, and a clock that went backwards gives a delay above 45000 ms;
    the cycle completes in every world whose collaborators throw values
    that have a description.  After a cycle that threw, the delay is
    10000 ms. *)
Theorem delay_bounds (w : World) :
  let E := Date_now_end w - Date_now_start w in
  exists d,
    timers (trace (Ts.runUpdate w)) = [d] /\
    500 <= d /\
    (0 <= E -> d <= 45000) /\
    (forall r, outcome (Ts.updateOraclePrices w) = Return r ->
       (0 <= E <= 44500 -> E + d = 45000) /\ (E < 0 -> 45000 < d)) /\
    (forall e, outcome (Ts.updateOraclePrices w) = Throw e -> d = 10000) /\
    (describable_world w ->
       (0 <= E <= 44500 -> E + d = 45000) /\ (E < 0 -> 45000 < d)).
Proof.
  cbn zeta. eexists. split; [apply runUpdate_timers | ].
  change Ts.UPDATE_INTERVAL with 45000.
  assert (Hw : describable_world w ->
               exists r, outcome (Ts.updateOraclePrices w) = Return r).
  { intros Hw. destruct (ts_update_tagged w Hw) as (r & Hr & _). eauto. }
  destruct (outcome (Ts.updateOraclePrices w)) as [r|e].
  - split; [lia | split; [lia | split; [intros; lia | split; [discriminate | ]]]].
    intros; lia.
  - split; [lia | split; [lia | split; [discriminate | split; [reflexivity | ]]]].
    intros Hd. destruct (Hw Hd) as (r & [=]).
Qed.

Lemma delay_bounds_witness :
  exists d,
    timers (trace (Ts.runUpdate Worlds.world_ok)) = [d] /\ 500 <= d /\
    d <= 45000 /\ 120 + d = 45000.
Proof.
  destruct (delay_bounds Worlds.world_ok)
    as (d & Hd & Hfloor & Hceil & Hreturned & _ & _).
  exists d. split; [exact Hd | split; [exact Hfloor | split]].
  - apply Hceil. cbn. lia.
  - apply (Hreturned (success_hash "0xabc") eq_refl). cbn. lia.
Defined.

(** X10. The continuous mode runs its cycles one after the other, one per
    timer: each cycle sends at most one transaction, never asks a function
    host, and ends by arming exactly one timer, which is its last request. *)
Theorem continuous_cycles (cycles : list World) :
  List.length (Ts.startContinuousUpdates cycles) = List.length cycles /\
  Forall (fun t =>
            (List.length (sends t) <= 1)%nat /\
            invocations t = [] /\
            exists before d,
              t = (before ++ [ESetTimeout d])%list /\ timers before = [] /\ 500 <= d)
         (Ts.startContinuousUpdates cycles).
Proof.
  induction cycles as [|w later [IHlen IHall]]; [split; [reflexivity | constructor] | ].
  cbn [Ts.startContinuousUpdates List.length]. split; [rewrite IHlen; reflexivity | ].
  constructor; [ | exact IHall].
  rewrite runUpdate_trace. cbn [trace fst].
  pose proof (ts_update_chain_only w) as Hchain.
  split; [ | split].
  - rewrite sends_app. cbn [sends]. rewrite List.app_nil_r.
    apply ts_update_sends_at_most_one.
  - rewrite invocations_app, (chain_only_no_invocations _ Hchain). reflexivity.
  - eexists _, _. split; [reflexivity | split].
    + apply (chain_only_no_timers _ Hchain).
    + destruct (outcome (Ts.updateOraclePrices w)); lia.
Qed.

(** ** The handlers, further *)

Lemma ts_dispatch_chain_only w event :
  sends_only chain_request (Ts.dispatch w event).
Proof.
  unfold Ts.dispatch.
  destruct (_ && _);
    [unfold Ts.getUnderlyingPrice, Ts.getUnderlyingPrice_try; sends_only | ].
  destruct (_ && _); [unfold Ts.getAssetPrice, Ts.getAssetPrice_try; sends_only | ].
  unfold Ts.updateOraclePrices, Ts.updateOraclePrices_try; sends_only.
Qed.

(** X11. An event that asks for a price without a usable address (none, or
    a falsy one such as the empty string), like an event with any other
    command, is handled as an event without a command: the handlers run the
    update cycle and answer with its result; they do not report the missing
    address. *)
Theorem request_without_address_runs_update
    (w : World) (event : list (string * JsVal)) :
  truthy (lookup "address" event) = false \/
  (strict_eq_str (lookup "command" event) "price" = false /\
   strict_eq_str (lookup "command" event) "asset-price" = false) ->
  Ts.handler w event = Ts.handler w [] /\
  Ts.dispatch w event = Ts.updateOraclePrices w /\
  Dist.dispatch w event = Dist.updateOraclePrices w /\
  Dist.handler w event
  = Dist.handler w [("noReschedule", lookup "noReschedule" event)].
Proof.
  intros H.
  assert (Hts : Ts.dispatch w event = Ts.updateOraclePrices w).
  { unfold Ts.dispatch. destruct H as [-> | [-> ->]];
      rewrite ?andb_false_r; reflexivity. }
  assert (Hdist : Dist.dispatch w event = Dist.updateOraclePrices w).
  { unfold Dist.dispatch. destruct H as [-> | [-> ->]];
      rewrite ?andb_false_r; reflexivity. }
  split; [ | split; [exact Hts | split; [exact Hdist | ]]].
  - unfold Ts.handler. rewrite Hts. reflexivity.
  - unfold Dist.handler, Dist.reschedules. cbn zeta. rewrite Hdist.
    cbn [lookup]. reflexivity.
Qed.

Lemma request_without_address_runs_update_witness :
  Ts.handler Worlds.world_ok [("command", JStr "price"); ("address", JStr "")]
  = Ts.handler Worlds.world_ok [] /\
  sends (trace (Ts.handler Worlds.world_ok [("command", JStr "price")]))
  = [(["0x504e4155"; "0x504e4156"], 2)].
Proof.
  split.
  - apply (request_without_address_runs_update Worlds.world_ok
             [("command", JStr "price"); ("address", JStr "")]).
    left. reflexivity.
  - replace (Ts.handler Worlds.world_ok [("command", JStr "price")])
      with (Ts.handler Worlds.world_ok []); [reflexivity | ].
    symmetry.
    apply (request_without_address_runs_update Worlds.world_ok
             [("command", JStr "price")]).
    left. reflexivity.
Defined.

(** X12. No handler arms a timer: the managed build asks the host for the
    next invocation right after the operation, without any delay of its own
    (its 45 s interval only appears in a log line), and the script's handler
    neither waits nor asks a host. *)
Theorem handlers_arm_no_timer (w : World) (event : list (string * JsVal)) :
  timers (trace (Dist.handler w event)) = [] /\
  timers (trace (Ts.handler w event)) = [] /\
  invocations (trace (Ts.handler w event)) = [].
Proof.
  rewrite dist_handler_trace, ts_handler_trace.
  pose proof (ts_dispatch_chain_only w event) as Hts.
  pose proof (dist_dispatch_chain_only w event) as Hdist.
  split; [ | split].
  - rewrite timers_app, (chain_only_no_timers _ Hdist).
    destruct (Dist.reschedules w event); reflexivity.
  - apply (chain_only_no_timers _ Hts).
  - apply (chain_only_no_invocations _ Hts).
Qed.

(** ** The command line *)

Lemma then_exit_returned {A} (p : Async A) :
  (exists a, outcome p = Return a) ->
  Cli.then_exit p = ([trace p], Cli.ExitCode 0).
Proof. intros (a & H). unfold Cli.then_exit. rewrite H. reflexivity. Qed.

Lemma tagged_returns (p : Async JsVal) :
  resolves_tagged p -> exists r, outcome p = Return r.
Proof. intros (r & H & _). eauto. Qed.

Lemma arg0_continuous_is_no_read (v : JsVal) :
  strict_eq_str v "continuous" = true ->
  strict_eq_str v "price" = false /\ strict_eq_str v "asset-price" = false.
Proof.
  destruct v; cbn; try discriminate.
  intros H. apply String.eqb_eq in H. subst. split; reflexivity.
Qed.

Lemma runUpdate_returns (w : World) : outcome (Ts.runUpdate w) = Return tt.
Proof. rewrite runUpdate_trace. reflexivity. Qed.

(** X13. Run from the command line for one operation, the compiled module
    always ends with exit code 0, and so do the script and the managed
    build in every world whose collaborators throw values that have a
    description, also when the operation failed: the exit code 1 of the
    [catch] is reached by no failure that has a description.  The script
    started with [continuous] does not exit, in any world. *)
Theorem cli_exit_code (w : World) (later : list World) (args : list string) :
  snd (Cli.compiled_main w args) = Cli.ExitCode 0 /\
  (strict_eq_str (Cli.arg args 0) "continuous" = true ->
   snd (Cli.ts_main w later args) = Cli.StaysAlive) /\
  (describable_world w ->
   snd (Cli.dist_main w args) = Cli.ExitCode 0 /\
   snd (Cli.ts_main w later args)
   = (if strict_eq_str (Cli.arg args 0) "continuous"
      then Cli.StaysAlive else Cli.ExitCode 0)).
Proof.
  assert (Hc : strict_eq_str (Cli.arg args 0) "continuous" = true ->
               snd (Cli.ts_main w later args) = Cli.StaysAlive).
  { intros Hc. unfold Cli.ts_main.
    destruct (arg0_continuous_is_no_read _ Hc) as [-> ->]. cbn [andb].
    rewrite Hc, runUpdate_returns. reflexivity. }
  split; [ | split; [exact Hc | ]].
  - destruct (compiled_operations_return w (Cli.arg args 1)) as (Hu & Hp & Ha).
    unfold Cli.compiled_main.
    destruct (_ && _); [rewrite (then_exit_returned _ Hp); reflexivity | ].
    destruct (_ && _); [rewrite (then_exit_returned _ Ha); reflexivity | ].
    rewrite (then_exit_returned _ Hu); reflexivity.
  - intros Hw. split.
    + unfold Cli.dist_main.
      destruct (_ && _);
        [rewrite then_exit_returned;
           [reflexivity | apply tagged_returns, (ts_underlying_tagged w _ Hw)] | ].
      destruct (_ && _);
        [rewrite then_exit_returned;
           [reflexivity | apply tagged_returns, (ts_asset_tagged w _ Hw)] | ].
      rewrite then_exit_returned;
        [reflexivity | apply tagged_returns, dist_update_tagged, Hw].
    + destruct (strict_eq_str (Cli.arg args 0) "continuous") eqn:E;
        [apply Hc; reflexivity | ].
      unfold Cli.ts_main. rewrite E.
      destruct (_ && _);
        [rewrite then_exit_returned;
           [reflexivity | apply tagged_returns, ts_underlying_tagged, Hw] | ].
      destruct (_ && _);
        [rewrite then_exit_returned;
           [reflexivity | apply tagged_returns, ts_asset_tagged, Hw] | ].
      rewrite then_exit_returned;
        [reflexivity | apply tagged_returns, ts_update_tagged, Hw].
Qed.

Lemma cli_exit_code_witness :
  snd (Cli.ts_main MoreWorlds.world_timeout [] ["continuous"]) = Cli.StaysAlive /\
  snd (Cli.dist_main MoreWorlds.world_timeout []) = Cli.ExitCode 0 /\
  snd (Cli.ts_main MoreWorlds.world_timeout [] ["price"; "0xAAA"]) = Cli.ExitCode 0.
Proof.
  destruct (cli_exit_code MoreWorlds.world_timeout [] ["continuous"])
    as (_ & Hstays & _).
  destruct (cli_exit_code MoreWorlds.world_timeout [] []) as (_ & _ & Hdist).
  destruct (cli_exit_code MoreWorlds.world_timeout [] ["price"; "0xAAA"])
    as (_ & _ & Hts).
  split; [apply Hstays; reflexivity | split].
  - apply (Hdist world_timeout_describable).
  - apply (Hts world_timeout_describable).
Defined.

(** The exit code 1 is reached when [formatError] throws inside the
    operation's [catch]. *)
Example exit_code_1_reached :
  Cli.ts_main MoreWorlds.world_unprintable [] []
  = ([[EGetBalance "0xA11CE"]], Cli.ExitCode 1) /\
  Cli.dist_main MoreWorlds.world_unprintable []
  = ([[EGetBalance "0xA11CE"]], Cli.ExitCode 1) /\
  snd (Cli.compiled_main MoreWorlds.world_unprintable []) = Cli.ExitCode 0.
Proof. repeat split. Qed.

(** X14. Only the script has a continuous mode.  Started with [continuous],
    the script runs cycle after cycle and stays alive; the managed build and
    the compiled module take the word for no command: they run one update
    cycle and exit, with code 0 when it returned (as the compiled module's
    always does, and the managed build's in every world whose collaborators
    throw values that have a description). *)
Theorem continuous_only_in_script
    (w : World) (later : list World) (rest : list string) :
  Cli.ts_main w later ("continuous" :: rest)
  = (Ts.startContinuousUpdates (w :: later), Cli.StaysAlive) /\
  Cli.dist_main w ("continuous" :: rest) = Cli.then_exit (Dist.updateOraclePrices w) /\
  Cli.dist_main w ("continuous" :: rest) = Cli.dist_main w [] /\
  fst (Cli.dist_main w ("continuous" :: rest)) = [trace (Dist.updateOraclePrices w)] /\
  (describable_world w ->
   Cli.dist_main w ("continuous" :: rest)
   = ([trace (Dist.updateOraclePrices w)], Cli.ExitCode 0)) /\
  Cli.compiled_main w ("continuous" :: rest)
  = ([trace (Compiled.updateOraclePrices w)], Cli.ExitCode 0).
Proof.
  assert (Hd : Cli.dist_main w ("continuous" :: rest)
               = Cli.then_exit (Dist.updateOraclePrices w)).
  { unfold Cli.dist_main.
    change (Cli.arg ("continuous" :: rest) 0) with (JStr "continuous").
    change (strict_eq_str (JStr "continuous") "price") with false.
    change (strict_eq_str (JStr "continuous") "asset-price") with false.
    reflexivity. }
  split; [ | split; [exact Hd | split; [exact Hd | split; [ | split]]]].
  - unfold Cli.ts_main.
    change (Cli.arg ("continuous" :: rest) 0) with (JStr "continuous").
    change (strict_eq_str (JStr "continuous") "price") with false.
    change (strict_eq_str (JStr "continuous") "asset-price") with false.
    change (strict_eq_str (JStr "continuous") "continuous") with true.
    cbv beta iota delta [andb]. rewrite runUpdate_returns. reflexivity.
  - rewrite Hd. reflexivity.
  - intros Hw. rewrite Hd.
    apply then_exit_returned, tagged_returns, dist_update_tagged, Hw.
  - unfold Cli.compiled_main.
    change (Cli.arg ("continuous" :: rest) 0) with (JStr "continuous").
    change (strict_eq_str (JStr "continuous") "price") with false.
    change (strict_eq_str (JStr "continuous") "asset-price") with false.
    cbv beta iota delta [andb].
    apply then_exit_returned, (compiled_operations_return w JUndefined).
Qed.

(** X15. On the command line, [price] or [asset-price] without an address
    (or with an empty one) is not an error: the variant runs the update
    cycle, exactly as without any argument. *)
Theorem cli_read_without_address_runs_update
    (w : World) (later : list World) (args : list string) :
  truthy (Cli.arg args 1) = false ->
  strict_eq_str (Cli.arg args 0) "continuous" = false ->
  Cli.ts_main w later args = Cli.ts_main w later [] /\
  Cli.dist_main w args = Cli.dist_main w [] /\
  Cli.compiled_main w args = Cli.compiled_main w [].
Proof.
  intros Ha Hc.
  unfold Cli.ts_main, Cli.dist_main, Cli.compiled_main.
  rewrite Ha, Hc, !andb_false_r. repeat split.
Qed.

Lemma cli_read_without_address_runs_update_witness :
  Cli.ts_main Worlds.world_ok [] ["price"] = Cli.ts_main Worlds.world_ok [] [] /\
  Cli.dist_main Worlds.world_ok ["asset-price"; ""] = Cli.dist_main Worlds.world_ok [] /\
  fst (Cli.ts_main Worlds.world_ok [] ["price"])
  = [trace (Ts.updateOraclePrices Worlds.world_ok)].
Proof.
  split; [ | split].
  - apply (cli_read_without_address_runs_update Worlds.world_ok [] ["price"]);
      reflexivity.
  - apply (cli_read_without_address_runs_update Worlds.world_ok [] ["asset-price"; ""]);
      reflexivity.
  - replace (Cli.ts_main Worlds.world_ok [] ["price"])
      with (Cli.ts_main Worlds.world_ok [] []); [reflexivity | ].
    symmetry.
    apply (cli_read_without_address_runs_update Worlds.world_ok [] ["price"]);
      reflexivity.
Defined.

(** ** The balance query *)

(** X16. The balance is only printed, yet the script and the managed build
    await it inside the [try]: when the balance query throws, their cycle
    ends there, with one request made, and settles to what the [catch]
    makes of the thrown value: the failure with its description,
    [formatError] of it.  The compiled module does not make the query and
    runs the same whatever its answer would be. *)
Theorem balance_failure_aborts_cycle
    (w : World) (key address : string) (e : JsVal) :
  PRIVATE_KEY_TEST w = Some key -> key <> "" ->
  Wallet_address w key = Return address ->
  getBalance w address = Throw e ->
  Ts.updateOraclePrices w = ([EGetBalance address], caught e) /\
  Dist.updateOraclePrices w = ([EGetBalance address], caught e) /\
  (forall description,
     formatError e = Return description ->
     Ts.updateOraclePrices w
     = ([EGetBalance address], Return (failure (JStr description))) /\
     Dist.updateOraclePrices w
     = ([EGetBalance address], Return (failure (JStr description)))) /\
  forall answer,
    Compiled.updateOraclePrices (Worlds.with_getBalance answer w)
    = Compiled.updateOraclePrices w.
Proof.
  intros Hk Hne Hw Hb.
  assert (Ht : Ts.updateOraclePrices w = ([EGetBalance address], caught e)).
  { unfold Ts.updateOraclePrices. rewrite ts_update_unfold.
    apply reported_raised; settle;
      rewrite (require_key_present w key _ Hk Hne); settle;
      rewrite Hw; settle; rewrite Hb; settle; reflexivity. }
  assert (Hd : Dist.updateOraclePrices w = ([EGetBalance address], caught e)).
  { unfold Dist.updateOraclePrices. rewrite dist_update_unfold.
    apply reported_raised; settle;
      rewrite (require_key_present w key _ Hk Hne); settle;
      rewrite Hw; settle; rewrite Hb; settle; reflexivity. }
  split; [exact Ht | split; [exact Hd | split; [ | reflexivity]]].
  intros description Hdesc.
  rewrite Ht, Hd, (caught_describable e description Hdesc). split; reflexivity.
Qed.

Lemma balance_failure_aborts_cycle_witness :
  let w := Worlds.with_getBalance (fun _ => Throw (JError "Error" "timeout"))
             Worlds.world_ok in
  Ts.updateOraclePrices w
  = ([EGetBalance "0xA11CE"], Return (failure (JStr "timeout"))) /\
  Dist.updateOraclePrices w
  = ([EGetBalance "0xA11CE"], Return (failure (JStr "timeout"))).
Proof.
  cbn zeta.
  destruct (balance_failure_aborts_cycle
              (Worlds.with_getBalance (fun _ => Throw (JError "Error" "timeout"))
                 Worlds.world_ok)
              "0x0123" "0xA11CE" (JError "Error" "timeout"))
    as (Ht & Hd & _); try reflexivity; [discriminate | ].
  split; [exact Ht | exact Hd].
Defined.

(** ** Read events *)





